(** * Settings dialogs and debug view of the assistant GUI

    A shallow embedding of [gui/settings_dialogs.py]: the log viewer
    ([DebugViewDialog]) with its filter list and quick filter, and the
    client settings dialog ([ClientSettingsDialog]) with its JSON settings
    file and the credentials it keeps in the process environment.

    Widgets are modelled by the part of their state the methods read and
    write: a [QLineEdit] by its text, a [QTextEdit] by the list of the
    paragraphs appended to it, a [QListWidget] by the list of its items,
    an editable [QComboBox] by its current text. *)

From Stdlib Require Import String Ascii List ZArith Bool Lia.
From stdpp Require Import base option list gmap strings.


(** ** Python strings *)

Module PyStr.

(** [needle in hay] on [str]: some suffix of [hay] starts with [needle]. *)
Fixpoint contains (needle hay : string) : bool :=
  String.prefix needle hay ||
  match hay with
  | EmptyString => false
  | String _ hay' => contains needle hay'
  end.

(** What "is a substring of" means, independently of the search above. *)
Definition substring_of (needle hay : string) : Prop :=
  ∃ before after, hay = before +:+ needle +:+ after.

(** [value.startswith(p)] *)
Definition startswith (value p : string) : bool := String.prefix p value.

(** [bool(s)] for a [str]: the empty string is the only falsy one. *)
Definition truthy (s : string) : bool :=
  match s with
  | EmptyString => false
  | String _ _ => true
  end.

(** [c * n] for a one character string [c]; a count of zero or less gives
    the empty string. *)
Definition repeat_char (c : ascii) (n : Z) : string :=
  string_of_list_ascii (List.repeat c (Z.to_nat n)).

Fixpoint drop (n : nat) (s : string) : string :=
  match n, s with
  | O, _ => s
  | S _, EmptyString => EmptyString
  | S n', String _ s' => drop n' s'
  end.

(** [s[i:]] for a negative [i]: the start is [len(s) + i], clipped at 0. *)
Definition slice_from_neg (i : Z) (s : string) : string :=
  drop (Z.to_nat (Z.max 0 (Z.of_nat (String.length s) + i))) s.

(** [str.lower] on the ASCII range, used to run the model on examples.
    The viewer itself is stated over any lowering function. *)
Definition ascii_lower_char (c : ascii) : ascii :=
  let n := nat_of_ascii c in
  if (65 <=? n)%nat && (n <=? 90)%nat then ascii_of_nat (n + 32) else c.

Fixpoint ascii_lower (s : string) : string :=
  match s with
  | EmptyString => EmptyString
  | String c s' => String (ascii_lower_char c) (ascii_lower s')
  end.

(** Nothing but ASCII blanks: what [s.strip()] would leave empty. *)
Fixpoint all_space (s : string) : bool :=
  match s with
  | EmptyString => true
  | String c s' => Ascii.is_space c && all_space s'
  end.

End PyStr.

(** ** The debug view *)

Module DebugView.

(** [Qt.CheckState] *)
Inductive CheckState := Unchecked | PartiallyChecked | Checked.

Record QListWidgetItem := mkItem {
  item_text : string;
  checkState : CheckState
}.

Record Dialog := mkDialog {
  logMessages : list string;          (* self.logMessages *)
  filterLineEdit : string;            (* self.filterLineEdit.text() *)
  filterList : list QListWidgetItem;  (* self.filterList *)
  textEdit : list string              (* paragraphs of self.textEdit *)
}.

(** [DebugViewDialog.__init__], as far as this state goes. *)
Definition init : Dialog := mkDialog [] "" [] [].

Definition textEdit_clear (d : Dialog) : Dialog :=
  mkDialog (logMessages d) (filterLineEdit d) (filterList d) [].

Definition textEdit_append (message : string) (d : Dialog) : Dialog :=
  mkDialog (logMessages d) (filterLineEdit d) (filterList d)
           (textEdit d ++ [message]).

(** [item.checkState() == Qt.CheckState.Checked] *)
Definition is_checked (it : QListWidgetItem) : bool :=
  match checkState it with
  | Checked => true
  | _ => false
  end.

Section WithLower.

(** [str.lower]. Python lowers by the Unicode tables; the viewer only ever
    passes text through it, so it is a parameter here. *)
Variable lower : string → string.

(** [any(filter_word in message.lower() for filter_word in selected_filters)] *)
Definition matches_any (selected_filters : list string) (message : string) : bool :=
  existsb (λ filter_word, PyStr.contains filter_word (lower message))
          selected_filters.

Definition apply_filter (d : Dialog) : Dialog :=
  let is_any_filter_selected := existsb is_checked (filterList d) in
  let d := textEdit_clear d in
  if is_any_filter_selected then
    let selected_filters :=
      List.map (λ it, lower (item_text it))
               (List.filter is_checked (filterList d)) in
    fold_left
      (λ d message,
         if matches_any selected_filters message
         then textEdit_append message d else d)
      (logMessages d) d
  else
    let filter_text := lower (filterLineEdit d) in
    fold_left
      (λ d message,
         if PyStr.contains filter_text (lower message)
         then textEdit_append message d else d)
      (logMessages d) d.

Definition append_text_slot (message : string) (d : Dialog) : Dialog :=
  let d := textEdit_append message d in
  let d := mkDialog (logMessages d ++ [message]) (filterLineEdit d)
                    (filterList d) (textEdit d) in
  apply_filter d.

Definition clear_log_window (d : Dialog) : Dialog :=
  let d := textEdit_clear d in
  mkDialog [] (filterLineEdit d) (filterList d) (textEdit d).

Definition add_filter_word (d : Dialog) : Dialog :=
  let filter_word := filterLineEdit d in
  if negb (PyStr.truthy filter_word) then d
  else
    let item := mkItem filter_word Unchecked in
    let d := mkDialog (logMessages d) (filterLineEdit d)
                      (filterList d ++ [item]) (textEdit d) in
    apply_filter d.

(** The user edits the quick filter: [textChanged] runs [apply_filter]. *)
Definition filterLineEdit_setText (text : string) (d : Dialog) : Dialog :=
  apply_filter (mkDialog (logMessages d) text (filterList d) (textEdit d)).

(** The user ticks or unticks the item in row [i]: [itemChanged] runs
    [apply_filter]. A row that does not exist cannot be clicked. *)
Definition item_setCheckState (i : nat) (cs : CheckState) (d : Dialog) : Dialog :=
  match filterList d !! i with
  | None => d
  | Some it =>
      apply_filter
        (mkDialog (logMessages d) (filterLineEdit d)
                  (<[i := mkItem (item_text it) cs]> (filterList d))
                  (textEdit d))
  end.

(** What the log view shows once the filter has been applied. *)
Definition render (d : Dialog) : list string := textEdit (apply_filter d).

(** The messages a filter state lets through, one by one. *)
Definition shown (d : Dialog) (message : string) : bool :=
  if existsb is_checked (filterList d) then
    matches_any (List.map (λ it, lower (item_text it))
                          (List.filter is_checked (filterList d))) message
  else PyStr.contains (lower (filterLineEdit d)) (lower message).

End WithLower.

End DebugView.

(** ** JSON text, as the settings file uses it *)

Module Json.

(** [json.dumps(obj, indent=4)] and [json.load] for the one shape this
    dialog writes: an object whose values are strings. Characters are the
    8-bit ones of [string], read as the code points 0 to 255. [loads]
    answers [None] where [json.load] raises, and also for a document it
    cannot represent (a value that is not a string, an escape above
    U+00FF). *)

Definition quote : ascii := "034"%char.
Definition newline : ascii := "010"%char.

(** The digit of [format(n, "x")] for [n] below sixteen. *)
Definition hex_digit (n : nat) : ascii :=
  if (n <? 10)%nat then ascii_of_nat (48 + n) else ascii_of_nat (87 + n).

(** One character of [py_encode_basestring_ascii]: the short escapes,
    and a four digit escape for whatever is outside [' '..'~']. *)
Definition escape_char (c : ascii) : string :=
  match c with
  | "034"%char => String "\" (String quote "")
  | "\"%char => "\\"
  | "010"%char => "\n"
  | "013"%char => "\r"
  | "009"%char => "\t"
  | "008"%char => "\b"
  | "012"%char => "\f"
  | _ =>
      let n := nat_of_ascii c in
      if (32 <=? n)%nat && (n <=? 126)%nat then String c ""
      else "\u00" +:+ String (hex_digit (n / 16))
                             (String (hex_digit (n mod 16)) "")
  end.

Fixpoint escape (s : string) : string :=
  match s with
  | EmptyString => EmptyString
  | String c s' => escape_char c +:+ escape s'
  end.

Definition encode_str (s : string) : string :=
  String quote (escape s +:+ String quote "").

Definition newline_indent : string := String newline "    ".

(** A [dict] literal keeps its insertion order, so it is a list here. *)
Definition dumps_indent4 (obj : list (string * string)) : string :=
  match obj with
  | [] => "{}"
  | _ =>
      "{" +:+ newline_indent +:+
      String.concat ("," +:+ newline_indent)
        (List.map (λ kv, encode_str kv.1 +:+ ": " +:+ encode_str kv.2) obj)
      +:+ String newline "}"
  end.

Definition is_ws (c : ascii) : bool :=
  match c with
  | " " | "009" | "010" | "013" => true
  | _ => false
  end%char.

Fixpoint skip_ws (s : string) : string :=
  match s with
  | EmptyString => EmptyString
  | String c s' => if is_ws c then skip_ws s' else s
  end.

(** The value of a hexadecimal digit, in either case. *)
Definition hex_val (c : ascii) : option nat :=
  let n := nat_of_ascii c in
  if (48 <=? n)%nat && (n <=? 57)%nat then Some (n - 48)%nat
  else if (97 <=? n)%nat && (n <=? 102)%nat then Some (n - 87)%nat
  else if (65 <=? n)%nat && (n <=? 70)%nat then Some (n - 55)%nat
  else None.

Definition hex4 (h1 h2 h3 h4 : ascii) : option nat :=
  a ← hex_val h1; b ← hex_val h2; c ← hex_val h3; d ← hex_val h4;
  Some (((a * 16 + b) * 16 + c) * 16 + d).

Definition cons_char (c : ascii) (r : option (string * string))
  : option (string * string) :=
  '(s, rest) ← r; Some (String c s, rest).

(** [py_scanstring] in strict mode, from just after the opening quote:
    the decoded string and the text after the closing quote. *)
Fixpoint scan_string (s : string) : option (string * string) :=
  match s with
  | EmptyString => None
  | String c s' =>
      if Ascii.eqb c quote then Some ("", s')
      else if Ascii.eqb c "\" then
        match s' with
        | EmptyString => None
        | String e s'' =>
            if Ascii.eqb e quote then cons_char quote (scan_string s'')
            else
              match e with
              | "\" => cons_char "\" (scan_string s'')
              | "/" => cons_char "/" (scan_string s'')
              | "b" => cons_char "008" (scan_string s'')
              | "f" => cons_char "012" (scan_string s'')
              | "n" => cons_char "010" (scan_string s'')
              | "r" => cons_char "013" (scan_string s'')
              | "t" => cons_char "009" (scan_string s'')
              | "u" =>
                  match s'' with
                  | String h1 (String h2 (String h3 (String h4 rest))) =>
                      n ← hex4 h1 h2 h3 h4;
                      if (n <? 256)%nat
                      then cons_char (ascii_of_nat n) (scan_string rest)
                      else None
                  | _ => None
                  end
              | _ => None
              end%char
        end
      else if (nat_of_ascii c <? 32)%nat then None
      else cons_char c (scan_string s')
  end.

(** The members of an object, from the opening quote of a key up to and
    including the closing brace. *)
Fixpoint members (fuel : nat) (s : string)
  : option (list (string * string) * string) :=
  match fuel with
  | O => None
  | S fuel' =>
      match s with
      | String "034" s1 =>
          '(k, s2) ← scan_string s1;
          match skip_ws s2 with
          | String ":" s3 =>
              match skip_ws s3 with
              | String "034" s4 =>
                  '(v, s5) ← scan_string s4;
                  match skip_ws s5 with
                  | String "}" rest => Some ([(k, v)], rest)
                  | String "," s6 =>
                      '(kvs, rest) ← members fuel' (skip_ws s6);
                      Some ((k, v) :: kvs, rest)
                  | _ => None
                  end
              | _ => None
              end
          | _ => None
          end
      | _ => None
      end
  end%char.

Definition loads (s : string) : option (list (string * string)) :=
  match skip_ws s with
  | String "{" s1 =>
      match skip_ws s1 with
      | String "}" rest =>
          match skip_ws rest with EmptyString => Some [] | _ => None end
      | s2 =>
          '(kvs, rest) ← members (String.length s) s2;
          match skip_ws rest with EmptyString => Some kvs | _ => None end
      end
  | _ => None
  end%char.

(** The [dict] a parsed object becomes: a repeated key keeps its last
    value. *)
Definition to_dict (kvs : list (string * string)) : gmap string string :=
  fold_left (λ m kv, <[kv.1 := kv.2]> m) kvs ∅.

End Json.

(** ** The client settings dialog *)

Module ClientSettings.

(** Modelled from the spec: the enum [AIClientType] of
    [azure.ai.assistant.management.ai_client_factory], which this file
    imports; the dialog names its two members. *)
Inductive AIClientType := AZURE_OPEN_AI | OPEN_AI.

(** [member.name] *)
Definition name (t : AIClientType) : string :=
  match t with
  | AZURE_OPEN_AI => "AZURE_OPEN_AI"
  | OPEN_AI => "OPEN_AI"
  end.

(** The process environment and the files on disk. *)
Record World := mkWorld {
  environ : gmap string string;   (* os.environ *)
  files : gmap string string      (* path to content *)
}.

(** [os.getenv(var, default)] *)
Definition getenv (w : World) (var dflt : string) : string :=
  default dflt (environ w !! var).

(** [os.path.join("config", "chat_completion_settings.json")] *)
Definition file_path : string := "config/chat_completion_settings.json".

Record Dialog := mkDialog {
  settings : gmap string string;       (* self.settings *)
  clientSelection : string;            (* currentText() *)
  openai_api_key_input : string;
  azure_api_key_input : string;
  azure_endpoint_input : string;
  azure_api_version_input : string;
  model_selection : string             (* currentText() *)
}.

(** The two line edits [set_key_input_value] is called on. *)
Inductive KeyInput := OpenAIKeyInput | AzureKeyInput.

Definition input_setText (input_field : KeyInput) (text : string)
    (d : Dialog) : Dialog :=
  match input_field with
  | OpenAIKeyInput =>
      mkDialog (settings d) (clientSelection d) text
               (azure_api_key_input d) (azure_endpoint_input d)
               (azure_api_version_input d) (model_selection d)
  | AzureKeyInput =>
      mkDialog (settings d) (clientSelection d) (openai_api_key_input d)
               text (azure_endpoint_input d)
               (azure_api_version_input d) (model_selection d)
  end.

Definition azure_endpoint_setText (text : string) (d : Dialog) : Dialog :=
  mkDialog (settings d) (clientSelection d) (openai_api_key_input d)
           (azure_api_key_input d) text
           (azure_api_version_input d) (model_selection d).

(** How [load_settings] can fail to return: [json.load] raised on the
    content of the file, or the content is a document [Json.loads] does not
    follow. *)
Inductive LoadError := NotAnObjectOfStrings.

(** [load_settings]: [self.settings] after the call, or the failure.
    [dict.update] lets the loaded keys win. *)
Definition load_settings (w : World) (settings : gmap string string)
  : LoadError + gmap string string :=
  match files w !! file_path with
  | Some content =>
      match Json.loads content with
      | Some loaded_settings => inr (Json.to_dict loaded_settings ∪ settings)
      | None => inl NotAnObjectOfStrings
      end
  | None => inr settings
  end.

(** [init_settings]: a new instance starts from [{}] and loads. *)
Definition init_settings (w : World) : LoadError + gmap string string :=
  load_settings w ∅.

(** [self.settings.get(key, default)] *)
Definition settings_get (settings : gmap string string)
    (key dflt : string) : string :=
  default dflt (settings !! key).

(** ['*' * (len(key) - 4) + key[-4:]] *)
Definition obscured_key (key : string) : string :=
  PyStr.repeat_char "*" (Z.of_nat (String.length key) - 4)
  +:+ PyStr.slice_from_neg (-4) key.

Definition set_key_input_value (input_field : KeyInput) (env_var : string)
    (w : World) (d : Dialog) : Dialog :=
  let key := getenv w env_var "" in
  if PyStr.truthy key then input_setText input_field (obscured_key key) d
  else d.

(** The last lines of [set_initial_states], which fill the credential
    fields from the environment. The lines before them choose the client
    and fill the model list through the client factory; they write none
    of these three fields. *)
Definition set_initial_states_credentials (w : World) (d : Dialog) : Dialog :=
  let d := set_key_input_value OpenAIKeyInput "OPENAI_API_KEY" w d in
  let d := set_key_input_value AzureKeyInput "AZURE_OPENAI_API_KEY" w d in
  let endpoint := getenv w "AZURE_OPENAI_ENDPOINT" "" in
  azure_endpoint_setText endpoint d.

Definition save_environment_variable (var_name value : string)
    (w : World) : World :=
  if PyStr.truthy value && negb (PyStr.startswith value "*******")
  then mkWorld (<[var_name := value]> (environ w)) (files w)
  else w.

Definition save_settings (settings_json : string) (w : World) : World :=
  mkWorld (environ w) (<[file_path := settings_json]> (files w)).

(** How [apply_settings] ends: with the error box and the dialog still
    open, or with [self.accept()]. *)
Inductive Outcome :=
| Critical (title text : string)
| Accepted.

Section WithEnum.

(** What the declaration of [AIClientType] decides for this file: the
    [str] a member is, when the class mixes [str] in ([Some]), or that
    members are plain [Enum] objects ([None]). *)
Variable str_value : AIClientType → option string.

(** [text == member] for a [str] on the left: a plain member is equal
    to nothing but itself. *)
Definition str_eq_member (text : string) (member : AIClientType) : bool :=
  match str_value member with
  | Some v => String.eqb text v
  | None => false
  end.

Definition apply_settings (d : Dialog) (w : World) : Outcome * World :=
  let ai_client_type := clientSelection d in
  if str_eq_member ai_client_type OPEN_AI
     && negb (PyStr.truthy (openai_api_key_input d)) then
    (Critical "Error"
       "OpenAI API Key is required when applying OpenAI settings.", w)
  else if str_eq_member ai_client_type AZURE_OPEN_AI
          && (negb (PyStr.truthy (azure_api_key_input d))
              || negb (PyStr.truthy (azure_endpoint_input d))) then
    (Critical "Error"
       "Azure OpenAI API Key and Endpoint are required when applying Azure OpenAI settings.", w)
  else
    let settings :=
      [("ai_client_type", ai_client_type);
       ("model", model_selection d);
       ("api_version", azure_api_version_input d)] in
    let w := save_environment_variable "OPENAI_API_KEY"
               (openai_api_key_input d) w in
    let w := save_environment_variable "AZURE_OPENAI_API_KEY"
               (azure_api_key_input d) w in
    let w := save_environment_variable "AZURE_OPENAI_ENDPOINT"
               (azure_endpoint_input d) w in
    let w := save_settings (Json.dumps_indent4 settings) w in
    (Accepted, w).

End WithEnum.

(** [class AIClientType(Enum)]: members are not strings. *)
Definition plain_enum : AIClientType → option string := λ _, None.

(** A declaration whose members are the strings of their names. *)
Definition name_valued_enum : AIClientType → option string :=
  λ member, Some (name member).

End ClientSettings.

(** ** The debug view under the events it is connected to *)

Module DebugViewEvents.
Import DebugView.

(** The signals [__init__] connects, each with the slot it runs. *)
Inductive Event :=
| AppendText (message : string)   (* appendTextSignal: append_text_slot *)
| TextChanged (text : string)     (* filterLineEdit.textChanged: apply_filter *)
| ReturnPressed                   (* filterLineEdit.returnPressed: add_filter_word *)
| ItemChanged (row : nat) (state : CheckState)
                                  (* filterList.itemChanged: apply_filter *)
| ClearClicked.                   (* clearButton.clicked: clear_log_window *)

Section WithLower.

Variable lower : string → string.

Definition handle (d : Dialog) (event : Event) : Dialog :=
  match event with
  | AppendText message => append_text_slot lower message d
  | TextChanged text => filterLineEdit_setText lower text d
  | ReturnPressed => add_filter_word lower d
  | ItemChanged row state => item_setCheckState lower row state d
  | ClearClicked => clear_log_window d
  end.

(** The events of a session, handled one after the other on the UI thread. *)
Definition run (events : list Event) (d : Dialog) : Dialog :=
  fold_left handle events d.

End WithLower.

End DebugViewEvents.

(** ** The general settings dialog *)

Module GeneralSettings.

Section WithFloat.

(** Python's [float] values and [float(text)] on a [str], [None] where it
    raises [ValueError]. *)
Variable float : Type.
Variable float_of_text : string → option float.

(** The attributes of the main window the dialog reads and writes. *)
Record MainWindow := mkMainWindow {
  thread_timeout : float;
  run_timeout : float;
  use_chat_completion_for_thread_name : bool
}.

Record Dialog := mkDialog {
  threadTimeoutEdit : string;                   (* text() *)
  runTimeoutEdit : string;                      (* text() *)
  useChatCompletionForThreadsCheckbox : bool    (* isChecked() *)
}.

(** How [accept] ends: the dialog closes, or the warning box is shown and
    the dialog stays open. *)
Inductive Outcome :=
| Closed
| Warning (title text : string).

Definition accept (d : Dialog) (main_window : MainWindow)
  : Outcome * MainWindow :=
  match float_of_text (threadTimeoutEdit d) with
  | Some thread_timeout =>
      match float_of_text (runTimeoutEdit d) with
      | Some run_timeout =>
          let use_chat_completion_for_thread_name :=
            useChatCompletionForThreadsCheckbox d in
          (Closed,
           mkMainWindow thread_timeout run_timeout
                        use_chat_completion_for_thread_name)
      | None =>
          (Warning "Invalid Input"
             "Please enter valid numbers for the timeouts.", main_window)
      end
  | None =>
      (Warning "Invalid Input"
         "Please enter valid numbers for the timeouts.", main_window)
  end.

End WithFloat.

End GeneralSettings.

(** ** The client settings dialog: client and model selection *)

Module ModelSelection.
Import ClientSettings.

(** [str.isspace] on the code points 0 to 255. *)
Definition is_space (c : ascii) : bool :=
  let n := nat_of_ascii c in
  ((9 <=? n)%nat && (n <=? 13)%nat) || ((28 <=? n)%nat && (n <=? 32)%nat)
  || (n =? 133)%nat || (n =? 160)%nat.

Fixpoint lstrip (s : string) : string :=
  match s with
  | EmptyString => EmptyString
  | String c s' => if is_space c then lstrip s' else s
  end.

(** [s.strip()] *)
Definition strip (s : string) : string :=
  String.rev (lstrip (String.rev (lstrip s))).

(** [AIClientType[text]], [None] for the [KeyError] of a text that names no
    member. *)
Definition member_of_name (text : string) : option AIClientType :=
  if String.eqb text (name AZURE_OPEN_AI) then Some AZURE_OPEN_AI
  else if String.eqb text (name OPEN_AI) then Some OPEN_AI
  else None.

(** What the client factory and the listing of its client come to, seen
    from [fill_client_model_selection]: no client, the ids of the models
    listed, or an exception with its text. *)
Inductive Listing :=
| NoClient
| ModelIds (ids : list string)
| Raises (message : string).

(** The dialog with the widget state the selection code works on. The
    model combo box is editable: [model_selection] of [dialog] is the text
    of its line edit. *)
Record Widgets := mkWidgets {
  dialog : Dialog;
  openai_api_key_enabled : bool;
  azure_api_key_enabled : bool;
  azure_endpoint_enabled : bool;
  azure_api_version_enabled : bool;
  model_items : list string;
  factory_calls : list (AIClientType * option string);
  warnings : list string
}.

Definition with_dialog (d : Dialog) (ws : Widgets) : Widgets :=
  mkWidgets d (openai_api_key_enabled ws) (azure_api_key_enabled ws)
            (azure_endpoint_enabled ws) (azure_api_version_enabled ws)
            (model_items ws) (factory_calls ws) (warnings ws).

Definition clientSelection_setText (text : string) (d : Dialog) : Dialog :=
  mkDialog (settings d) text (openai_api_key_input d) (azure_api_key_input d)
           (azure_endpoint_input d) (azure_api_version_input d)
           (model_selection d).

Definition azure_api_version_setText (text : string) (d : Dialog) : Dialog :=
  mkDialog (settings d) (clientSelection d) (openai_api_key_input d)
           (azure_api_key_input d) (azure_endpoint_input d) text
           (model_selection d).

Definition model_selection_setText (text : string) (d : Dialog) : Dialog :=
  mkDialog (settings d) (clientSelection d) (openai_api_key_input d)
           (azure_api_key_input d) (azure_endpoint_input d)
           (azure_api_version_input d) text.

(** The four [setEnabled] calls of either branch. *)
Definition setEnabled_for (azure : bool) (ws : Widgets) : Widgets :=
  mkWidgets (dialog ws) (negb azure) azure azure azure
            (model_items ws) (factory_calls ws) (warnings ws).

(** [model_selection.clear()]: no item is left and none is current, so the
    line edit is empty. *)
Definition model_selection_clear (ws : Widgets) : Widgets :=
  mkWidgets (model_selection_setText "" (dialog ws))
            (openai_api_key_enabled ws) (azure_api_key_enabled ws)
            (azure_endpoint_enabled ws) (azure_api_version_enabled ws)
            [] (factory_calls ws) (warnings ws).

(** [model_selection.addItem(id)]: the first item of an empty box becomes
    the current one and its text goes to the line edit. *)
Definition model_selection_addItem (ws : Widgets) (id : string) : Widgets :=
  mkWidgets (match model_items ws with
             | [] => model_selection_setText id (dialog ws)
             | _ :: _ => dialog ws
             end)
            (openai_api_key_enabled ws) (azure_api_key_enabled ws)
            (azure_endpoint_enabled ws) (azure_api_version_enabled ws)
            (model_items ws ++ [id]) (factory_calls ws) (warnings ws).

(** The end of the [try] block: the model of the settings, when there is
    one, goes to the line edit. *)
Definition set_default_model (ws : Widgets) : Widgets :=
  let default_model := settings_get (settings (dialog ws)) "model" "" in
  if PyStr.truthy default_model
  then with_dialog (model_selection_setText default_model (dialog ws)) ws
  else ws.

Section WithFactory.

(** What the factory answers to the calls of a session, by their rank. *)
Variable listing : nat → Listing.

(** [fill_client_model_selection] from [self.model_selection.clear()] on. *)
Definition fill_models (ai_client_type : AIClientType)
    (api_version : option string) (ws : Widgets) : Widgets :=
  let ws := model_selection_clear ws in
  match ai_client_type with
  | OPEN_AI =>
      let answer := listing (length (factory_calls ws)) in
      let ws :=
        mkWidgets (dialog ws) (openai_api_key_enabled ws)
                  (azure_api_key_enabled ws) (azure_endpoint_enabled ws)
                  (azure_api_version_enabled ws) (model_items ws)
                  (factory_calls ws ++ [(ai_client_type, api_version)])
                  (warnings ws) in
      match answer with
      | ModelIds ids =>
          set_default_model (fold_left model_selection_addItem ids ws)
      | NoClient => set_default_model ws
      | Raises message =>
          mkWidgets (dialog ws) (openai_api_key_enabled ws)
                    (azure_api_key_enabled ws) (azure_endpoint_enabled ws)
                    (azure_api_version_enabled ws) (model_items ws)
                    (factory_calls ws)
                    (warnings ws
                     ++ ["Failed to fill model selection: " +:+ message])
      end
  | AZURE_OPEN_AI => set_default_model ws
  end.

(** [fill_client_model_selection] when the client combo box already shows
    the client: [setCurrentText] changes no index and no signal is sent. *)
Definition fill_selected (ai_client_type : AIClientType)
    (api_version : option string) (ws : Widgets) : Widgets :=
  let azure := match ai_client_type with
               | AZURE_OPEN_AI => true
               | OPEN_AI => false
               end in
  fill_models ai_client_type api_version (setEnabled_for azure ws).

(** [update_model_selection], the slot of [currentIndexChanged]: the combo
    box shows the client it reads, so the call it makes is [fill_selected]. *)
Definition update_model_selection (ws : Widgets) : option Widgets :=
  ai_client_type ← member_of_name (clientSelection (dialog ws));
  let api_version :=
    match ai_client_type with
    | AZURE_OPEN_AI =>
        let stripped := strip (azure_api_version_input (dialog ws)) in
        Some (if PyStr.truthy stripped then stripped else "2023-09-01-preview")
    | OPEN_AI => None
    end in
  Some (fill_selected ai_client_type api_version ws).

(** [fill_client_model_selection]: when [setCurrentText] moves the client
    combo box to another item, [currentIndexChanged] runs its slot before
    the call returns. *)
Definition fill_client_model_selection (ai_client_type : AIClientType)
    (api_version : option string) (ws : Widgets) : option Widgets :=
  let target := match ai_client_type with
                | AZURE_OPEN_AI => name AZURE_OPEN_AI
                | OPEN_AI => name OPEN_AI
                end in
  ws ← (if String.eqb (clientSelection (dialog ws)) target then Some ws
        else update_model_selection
               (with_dialog (clientSelection_setText target (dialog ws)) ws));
  Some (fill_selected ai_client_type api_version ws).

Definition set_initial_states (w : World) (ws : Widgets) : option Widgets :=
  let ai_client_type :=
    settings_get (settings (dialog ws)) "ai_client_type" (name OPEN_AI) in
  let api_version :=
    settings_get (settings (dialog ws)) "api_version" "2023-09-01-preview" in
  let ws := with_dialog (azure_api_version_setText api_version (dialog ws)) ws in
  let api_version :=
    if String.eqb ai_client_type (name OPEN_AI) then None else Some api_version in
  member ← member_of_name ai_client_type;
  ws ← fill_client_model_selection member api_version ws;
  Some (with_dialog (set_initial_states_credentials w (dialog ws)) ws).

(** The widgets as [init_ui] has them before it calls [set_initial_states]:
    empty line edits, everything enabled, the client combo box on the first
    member of the enum, an empty model combo box. *)
Definition init_ui_widgets (first_member : AIClientType)
    (settings : gmap string string) : Widgets :=
  mkWidgets (mkDialog settings (name first_member) "" "" "" "" "")
            true true true true [] [] [].

(** [ClientSettingsDialog(main_window)]: [init_settings], then [init_ui].
    [None] stands for an exception out of the constructor. *)
Definition open_dialog (first_member : AIClientType) (w : World)
  : option Widgets :=
  match init_settings w with
  | inl _ => None
  | inr settings => set_initial_states w (init_ui_widgets first_member settings)
  end.

End WithFactory.

End ModelSelection.

(** * Properties *)

Module PyStrFacts.
Import PyStr.

Lemma prefix_iff needle hay :
  String.prefix needle hay = true ↔ ∃ after, hay = needle +:+ after.
Proof.
  revert hay. induction needle as [|a needle IH]; intros hay; simpl.
  - destruct hay; simpl; split; eauto.
  - destruct hay as [|b hay]; simpl.
    + split; [done | intros [after H]; discriminate].
    + destruct (ascii_dec a b) as [->|Hne].
      * rewrite IH. split; intros [after H]; exists after.
        -- by rewrite H.
        -- by injection H.
      * split; [done | intros [after H]; injection H; congruence].
Qed.

Lemma contains_nil needle :
  contains needle "" = String.prefix needle "".
Proof. simpl. apply orb_false_r. Qed.

Lemma contains_cons needle b hay :
  contains needle (String b hay) =
  String.prefix needle (String b hay) || contains needle hay.
Proof. reflexivity. Qed.

Lemma contains_iff needle hay :
  contains needle hay = true ↔ substring_of needle hay.
Proof.
  unfold substring_of. induction hay as [|b hay IH].
  - rewrite contains_nil, prefix_iff. split.
    + intros [after H]. by exists "", after.
    + intros [[|c before] [after H]]; simpl in H; [eauto | discriminate].
  - rewrite contains_cons, orb_true_iff, prefix_iff, IH. split.
    + intros [[after H] | (before & after & H)].
      * by exists "", after.
      * exists (String b before), after. simpl. by rewrite H.
    + intros ([|c before] & after & H); simpl in H.
      * left. eauto.
      * right. injection H as _ H. eauto.
Qed.

Lemma contains_empty hay : contains "" hay = true.
Proof. destruct hay; reflexivity. Qed.

End PyStrFacts.

Module JsonFacts.
Import Json.

#[local] Arguments String.append !_ _ / : simpl nomatch.

Example dumps_example :
  dumps_indent4 [("ai_client_type", "OPEN_AI"); ("model", "gpt-4")]
  = "{" +:+ String newline
      ("    " +:+ String quote ("ai_client_type" +:+ String quote
         (": " +:+ String quote ("OPEN_AI" +:+ String quote
            ("," +:+ String newline
               ("    " +:+ String quote ("model" +:+ String quote
                  (": " +:+ String quote ("gpt-4" +:+ String quote
                     (String newline "}")))))))))).
Proof. vm_compute. reflexivity. Qed.

Example escape_example :
  escape (String quote (String "\" (String newline (String "233" "a/"))))
  = String "\" (String quote "\\\n\u00e9a/").
Proof. vm_compute. reflexivity. Qed.

Example loads_rejects_raw_newline :
  loads ("{" +:+ encode_str "a" +:+ ":"
         +:+ String quote (String newline (String quote "}")))
  = None.
Proof. vm_compute. reflexivity. Qed.

Example loads_last_key_wins :
  to_dict <$> loads ("{" +:+ encode_str "a" +:+ ":" +:+ encode_str "1" +:+ ","
                     +:+ encode_str "a" +:+ " : " +:+ encode_str "2" +:+ " } ")
  = Some {[ "a" := "2" ]}.
Proof. vm_compute. reflexivity. Qed.

Lemma string_app_assoc (a b c : string) :
  (a +:+ b) +:+ c = a +:+ (b +:+ c).
Proof. induction a as [|x a IH]; simpl; [done | by rewrite IH]. Qed.

Lemma string_app_length (a b : string) :
  String.length (a +:+ b) = (String.length a + String.length b)%nat.
Proof. induction a as [|x a IH]; simpl; [done | by rewrite IH]. Qed.

(** Reading back one escaped character gives the character. *)
Lemma scan_escape_char (c : ascii) (text : string) :
  scan_string (escape_char c +:+ text) = cons_char c (scan_string text).
Proof. destruct c as [[] [] [] [] [] [] [] []]; reflexivity. Qed.

Lemma scan_escape (s rest : string) :
  scan_string (escape s +:+ String quote rest) = Some (s, rest).
Proof.
  induction s as [|c s IH]; simpl; [done |].
  by rewrite string_app_assoc, scan_escape_char, IH.
Qed.

Lemma encode_str_app (s rest : string) :
  encode_str s +:+ rest = String quote (escape s +:+ String quote rest).
Proof. unfold encode_str. simpl. by rewrite string_app_assoc. Qed.

Ltac right_nest :=
  repeat first [rewrite string_app_assoc | progress cbn [String.append]].

Lemma concat_two (sep x y : string) (l : list string) (rest : string) :
  String.concat sep (x :: y :: l) +:+ rest
  = x +:+ sep +:+ (String.concat sep (y :: l) +:+ rest).
Proof. cbn [String.concat]. by rewrite !string_app_assoc. Qed.

(** The members of a non-empty object start with the quote of a key. *)
Lemma concat_members_head (kv : string * string)
    (kvs : list (string * string)) (rest : string) :
  ∃ text,
    String.concat ("," +:+ newline_indent)
      (List.map (λ kv, encode_str kv.1 +:+ ": " +:+ encode_str kv.2) (kv :: kvs))
    +:+ rest
    = String quote text.
Proof.
  cbn [List.map]. destruct kvs as [|kv' kvs].
  - cbn [List.map String.concat]. unfold encode_str. right_nest. eauto.
  - cbn [List.map]. rewrite concat_two. unfold encode_str at 1. right_nest.
    eauto.
Qed.

Lemma members_concat (kvs : list (string * string)) (kv : string * string)
    (fuel : nat) (rest : string) :
  (length kvs < fuel)%nat →
  members fuel
    (String.concat ("," +:+ newline_indent)
       (List.map (λ kv, encode_str kv.1 +:+ ": " +:+ encode_str kv.2) (kv :: kvs))
     +:+ String newline (String "}" rest))
  = Some (kv :: kvs, rest).
Proof.
  revert kv fuel. induction kvs as [|kv' kvs IH]; intros [k v] fuel Hfuel;
    (destruct fuel as [|fuel]; [simpl in Hfuel; lia |]).
  - cbn [List.map String.concat fst snd]. unfold encode_str. right_nest.
    cbn [members]. rewrite scan_escape. cbn.
    by rewrite scan_escape.
  - specialize (IH kv' fuel ltac:(simpl in Hfuel; lia)).
    destruct (concat_members_head kv' kvs (String newline (String "}" rest)))
      as [text Htext].
    rewrite Htext in IH.
    change (List.map ?f ((k, v) :: kv' :: kvs))
      with (f (k, v) :: List.map f (kv' :: kvs)).
    cbn [List.map] in Htext |- *. rewrite concat_two, Htext.
    cbn [fst snd]. unfold encode_str, newline_indent. right_nest.
    cbn [members]. rewrite scan_escape. cbn.
    rewrite scan_escape. cbn.
    by rewrite IH.
Qed.

Lemma concat_length (sep : string) (l : list string) :
  Forall (λ x, x ≠ "") l →
  (length l ≤ String.length (String.concat sep l))%nat.
Proof.
  induction 1 as [|x l Hx Hl IH]; [done |].
  destruct l as [|y l].
  - destruct x; [done | simpl; lia].
  - change (String.concat sep (x :: y :: l))
      with (x +:+ sep +:+ String.concat sep (y :: l)).
    rewrite !string_app_length.
    destruct x; [done |]. cbn [length String.length] in *. lia.
Qed.

Lemma concat_members_length (kvs : list (string * string)) :
  (length kvs ≤
   String.length
     (String.concat ("," +:+ newline_indent)
        (List.map (λ kv, encode_str kv.1 +:+ ": " +:+ encode_str kv.2) kvs)))%nat.
Proof.
  rewrite <- (length_map (λ kv, encode_str kv.1 +:+ ": " +:+ encode_str kv.2) kvs)
    at 1.
  apply concat_length, Forall_forall. intros x Hx.
  apply list_elem_of_In, in_map_iff in Hx as (kv & <- & _).
  unfold encode_str. discriminate.
Qed.

(** What [dumps_indent4] writes, [loads] reads back, member for member. *)
Lemma loads_dumps (obj : list (string * string)) :
  loads (dumps_indent4 obj) = Some obj.
Proof.
  destruct obj as [|kv kvs]; [done |].
  unfold dumps_indent4, loads.
  pose proof (concat_members_length (kv :: kvs)) as Hlen.
  destruct (concat_members_head kv kvs (String newline "}")) as [text Htext].
  pose proof (members_concat kvs kv) as Hmembers.
  set (body := String.concat _ _) in *. clearbody body.
  specialize (Hmembers
    (String.length ("{" +:+ newline_indent +:+ body +:+ String newline "}")) "").
  rewrite !string_app_length in Hmembers.
  specialize (Hmembers ltac:(simpl in *; lia)).
  rewrite <- !string_app_length in Hmembers.
  generalize dependent
    (String.length ("{" +:+ newline_indent +:+ body +:+ String newline "}")).
  intros fuel Hmembers.
  rewrite Htext in Hmembers. unfold quote in Hmembers.
  unfold newline_indent. cbn. rewrite Htext. cbn.
  by rewrite Hmembers.
Qed.

End JsonFacts.

(** ** The debug view: what [apply_filter] leaves on screen *)

Module DebugViewProps.
Import PyStr DebugView PyStrFacts.

Section WithLower.

Variable lower : string → string.

(** Either loop of [apply_filter] appends, in order, the messages its test
    keeps. *)
Lemma keep_loop (keep : string → bool) (messages : list string) (d : Dialog) :
  fold_left (λ d message, if keep message then textEdit_append message d else d)
            messages d
  = mkDialog (logMessages d) (filterLineEdit d) (filterList d)
             (textEdit d ++ List.filter keep messages).
Proof.
  revert d. induction messages as [|m messages IH]; intros d; simpl.
  - rewrite app_nil_r. by destruct d.
  - rewrite IH. destruct (keep m); simpl; [by rewrite <- app_assoc | done].
Qed.

Lemma apply_filter_shown (d : Dialog) :
  apply_filter lower d
  = mkDialog (logMessages d) (filterLineEdit d) (filterList d)
             (List.filter (shown lower d) (logMessages d)).
Proof.
  unfold apply_filter, shown.
  destruct (existsb is_checked (filterList d)); by rewrite keep_loop.
Qed.

Lemma render_shown (d : Dialog) :
  render lower d = List.filter (shown lower d) (logMessages d).
Proof. unfold render. by rewrite apply_filter_shown. Qed.

Lemma is_checked_iff (it : QListWidgetItem) :
  is_checked it = true ↔ checkState it = Checked.
Proof. unfold is_checked. destruct (checkState it); split; congruence. Qed.

Lemma any_checked_iff (items : list QListWidgetItem) :
  existsb is_checked items = true ↔
  ∃ it, it ∈ items ∧ checkState it = Checked.
Proof.
  rewrite existsb_exists. split; intros (it & Hin & Hc); exists it.
  - by rewrite list_elem_of_In, <- is_checked_iff.
  - by rewrite <- list_elem_of_In, is_checked_iff.
Qed.

Lemma none_checked_iff (items : list QListWidgetItem) :
  existsb is_checked items = false ↔
  ∀ it, it ∈ items → checkState it ≠ Checked.
Proof.
  rewrite <- not_true_iff_false, any_checked_iff. split.
  - intros Hno it Hin Hc. apply Hno. eauto.
  - intros Hall (it & Hin & Hc). by apply (Hall it).
Qed.

(** With a ticked item, a message passes iff the lowered text of some ticked
    item occurs in the lowered message. *)
Lemma shown_ticked (d : Dialog) (message : string) :
  existsb is_checked (filterList d) = true →
  shown lower d message = true ↔
  ∃ it, it ∈ filterList d ∧ checkState it = Checked
        ∧ substring_of (lower (item_text it)) (lower message).
Proof.
  intros Hany. unfold shown, matches_any. rewrite Hany, existsb_exists. split.
  - intros (w & Hin & Hw). apply in_map_iff in Hin as (it & <- & Hin).
    apply filter_In in Hin as [Hin Hc]. exists it.
    by rewrite list_elem_of_In, <- is_checked_iff, <- contains_iff.
  - intros (it & Hin & Hc & Hsub). exists (lower (item_text it)). split.
    + apply in_map_iff. exists it. split; [done |].
      apply filter_In. by rewrite <- list_elem_of_In, is_checked_iff.
    + by apply contains_iff.
Qed.

Lemma shown_unticked (d : Dialog) (message : string) :
  existsb is_checked (filterList d) = false →
  shown lower d message = true ↔
  substring_of (lower (filterLineEdit d)) (lower message).
Proof. intros Hnone. unfold shown. by rewrite Hnone, contains_iff. Qed.

Lemma filter_sublist (keep : string → bool) (l : list string) :
  List.filter keep l `sublist_of` l.
Proof.
  induction l as [|x l IH]; simpl; [constructor |].
  destruct (keep x); by constructor.
Qed.

Lemma elem_of_filter_iff (keep : string → bool) (l : list string) (x : string) :
  x ∈ List.filter keep l ↔ x ∈ l ∧ keep x = true.
Proof. rewrite !list_elem_of_In. apply filter_In. Qed.

(** C2. When at least one filter entry is ticked, the view shows exactly the
    buffered messages whose lowered text contains the lowered word of some
    ticked entry (any one of them is enough), and the text of the quick
    filter plays no part in the result. *)
Theorem render_ticked_filters_any_word (d : Dialog) :
  (∃ it, it ∈ filterList d ∧ checkState it = Checked) →
  (∃ keep : string → bool,
      render lower d = List.filter keep (logMessages d)
      ∧ ∀ message, keep message = true ↔
          ∃ it, it ∈ filterList d ∧ checkState it = Checked
                ∧ substring_of (lower (item_text it)) (lower message))
  ∧ (∀ message, message ∈ render lower d ↔
        message ∈ logMessages d
        ∧ ∃ it, it ∈ filterList d ∧ checkState it = Checked
                ∧ substring_of (lower (item_text it)) (lower message))
  ∧ (∀ quick,
        render lower (mkDialog (logMessages d) quick (filterList d) (textEdit d))
        = render lower d).
Proof.
  intros Hany%any_checked_iff. split; [| split].
  - exists (shown lower d). split; [apply render_shown |].
    intros message. by apply shown_ticked.
  - intros message.
    by rewrite render_shown, elem_of_filter_iff, shown_ticked.
  - intros quick. rewrite !render_shown. simpl.
    apply filter_ext. intros message. unfold shown. simpl. by rewrite Hany.
Qed.

(** C3. When no filter entry is ticked, the view shows exactly the buffered
    messages for which the quick filter text is empty or occurs, both sides
    lowered, in the message; with an empty quick filter the view is the
    whole buffer. *)
Theorem render_quick_filter_fallback (d : Dialog) :
  lower "" = "" →
  (∀ it, it ∈ filterList d → checkState it ≠ Checked) →
  (∃ keep : string → bool,
      render lower d = List.filter keep (logMessages d)
      ∧ ∀ message, keep message = true ↔
          filterLineEdit d = ""
          ∨ substring_of (lower (filterLineEdit d)) (lower message))
  ∧ (∀ message, message ∈ render lower d ↔
        message ∈ logMessages d
        ∧ (filterLineEdit d = ""
           ∨ substring_of (lower (filterLineEdit d)) (lower message)))
  ∧ (filterLineEdit d = "" → render lower d = logMessages d).
Proof.
  intros Hlower Hnone%none_checked_iff.
  assert (Hshown : ∀ message, shown lower d message = true ↔
            filterLineEdit d = ""
            ∨ substring_of (lower (filterLineEdit d)) (lower message)).
  { intros message. rewrite shown_unticked by done. split; [by right |].
    intros [Hempty | Hsub]; [| done].
    rewrite Hempty, Hlower. apply contains_iff, contains_empty. }
  split; [| split].
  - exists (shown lower d). split; [apply render_shown | done].
  - intros message. by rewrite render_shown, elem_of_filter_iff, Hshown.
  - intros Hempty. rewrite render_shown.
    rewrite <- (filter_true (logMessages d)) at 2.
    apply filter_ext. intros message. apply Hshown. by left.
Qed.

Lemma render_apply_filter (d : Dialog) :
  render lower (apply_filter lower d) = render lower d.
Proof. rewrite !render_shown. by rewrite apply_filter_shown. Qed.

(** Changing the tick of row [i] cannot change what is shown while another
    row [j] with the same text stays ticked. *)
Lemma shown_insert_duplicate (d : Dialog) (i j : nat)
    (it_i it_j : QListWidgetItem) (cs : CheckState) (message : string) :
  i ≠ j →
  filterList d !! i = Some it_i →
  filterList d !! j = Some it_j →
  item_text it_i = item_text it_j →
  checkState it_j = Checked →
  shown lower
    (mkDialog (logMessages d) (filterLineEdit d)
              (<[i := mkItem (item_text it_i) cs]> (filterList d)) (textEdit d))
    message
  = shown lower d message.
Proof.
  intros Hij Hi Hj Htext Hc.
  set (items' := <[i := mkItem (item_text it_i) cs]> (filterList d)).
  assert (Hj' : items' !! j = Some it_j).
  { unfold items'. by rewrite list_lookup_insert_ne. }
  apply eq_true_iff_eq.
  rewrite !shown_ticked; simpl.
  2: { apply any_checked_iff. exists it_j. split; [| done].
       apply list_elem_of_lookup. eauto. }
  2: { apply any_checked_iff. exists it_j. split; [| done].
       apply list_elem_of_lookup. eauto. }
  split; intros (it & Hin & Hit & Hsub).
  - apply list_elem_of_lookup in Hin as [k Hk].
    destruct (decide (k = i)) as [-> | Hne].
    + unfold items' in Hk.
      rewrite list_lookup_insert_eq in Hk by (by eapply lookup_lt_Some).
      injection Hk as <-. simpl in Hsub. rewrite Htext in Hsub.
      exists it_j. split; [apply list_elem_of_lookup; eauto | done].
    + unfold items' in Hk. rewrite list_lookup_insert_ne in Hk by done.
      exists it. split; [apply list_elem_of_lookup; eauto | done].
  - apply list_elem_of_lookup in Hin as [k Hk].
    destruct (decide (k = i)) as [-> | Hne].
    + assert (it = it_i) as -> by congruence. rewrite Htext in Hsub.
      exists it_j. split; [apply list_elem_of_lookup; eauto | done].
    + exists it. split; [| done]. apply list_elem_of_lookup. exists k.
      unfold items'. by rewrite list_lookup_insert_ne.
Qed.

(** C5, as the code has it. Pressing Enter on an empty line edit changes
    nothing. On any other text, blank or not, one unticked item with that
    text goes to the end of the filter list, the buffer and the line edit
    stay as they are and the view is rendered again; doing it twice leaves
    two items, and while one of two items with the same text is ticked the
    tick of the other makes no difference to the view. *)
Theorem add_filter_word_appends_unticked_item (d : Dialog) :
  (filterLineEdit d = "" → add_filter_word lower d = d)
  ∧ (filterLineEdit d ≠ "" →
       filterList (add_filter_word lower d)
       = filterList d ++ [mkItem (filterLineEdit d) Unchecked]
       ∧ logMessages (add_filter_word lower d) = logMessages d
       ∧ filterLineEdit (add_filter_word lower d) = filterLineEdit d
       ∧ textEdit (add_filter_word lower d) = render lower d
       ∧ filterList (add_filter_word lower (add_filter_word lower d))
         = filterList d ++ [mkItem (filterLineEdit d) Unchecked;
                            mkItem (filterLineEdit d) Unchecked])
  ∧ (∀ i j it_i it_j cs,
       i ≠ j →
       filterList d !! i = Some it_i →
       filterList d !! j = Some it_j →
       item_text it_i = item_text it_j →
       checkState it_j = Checked →
       render lower (item_setCheckState lower i cs d) = render lower d).
Proof.
  split; [| split].
  - intros Hempty. unfold add_filter_word. by rewrite Hempty.
  - intros Hword.
    assert (Htruthy : truthy (filterLineEdit d) = true).
    { by destruct (filterLineEdit d). }
    assert (Hadd : add_filter_word lower d
                   = mkDialog (logMessages d) (filterLineEdit d)
                       (filterList d ++ [mkItem (filterLineEdit d) Unchecked])
                       (render lower d)).
    { unfold add_filter_word. rewrite Htruthy. simpl.
      rewrite apply_filter_shown, render_shown. simpl. f_equal.
      apply filter_ext. intros message. unfold shown. simpl.
      rewrite List.filter_app, existsb_app. simpl.
      by rewrite orb_false_r, app_nil_r. }
    rewrite Hadd. simpl. repeat split.
    unfold add_filter_word. simpl. rewrite Htruthy. simpl.
    rewrite apply_filter_shown. simpl. by rewrite <- app_assoc.
  - intros i j it_i it_j cs Hij Hi Hj Htext Hc.
    unfold item_setCheckState. rewrite Hi.
    rewrite render_apply_filter, !render_shown. simpl.
    apply filter_ext. intros message.
    by apply (shown_insert_duplicate d i j it_i it_j).
Qed.

Lemma append_text_slot_eq (message : string) (d : Dialog) :
  append_text_slot lower message d
  = mkDialog (logMessages d ++ [message]) (filterLineEdit d) (filterList d)
      (List.filter
         (shown lower (mkDialog (logMessages d ++ [message]) (filterLineEdit d)
                                (filterList d) []))
         (logMessages d ++ [message])).
Proof.
  unfold append_text_slot. simpl. rewrite apply_filter_shown. simpl.
  f_equal.
Qed.

Lemma textEdit_append_text_slot (message : string) (d : Dialog) :
  textEdit (append_text_slot lower message d)
  = render lower (append_text_slot lower message d).
Proof. by rewrite render_shown, append_text_slot_eq. Qed.

(** A run of appends, read from its last message. *)
Lemma append_run_snoc (d : Dialog) (messages : list string) (message : string) :
  fold_left (λ d message, append_text_slot lower message d)
            (messages ++ [message]) d
  = append_text_slot lower message
      (fold_left (λ d message, append_text_slot lower message d) messages d).
Proof. by rewrite fold_left_app. Qed.

(** C6. After any run of appended messages, from any state of the buffer
    and the filters, the buffer is the old buffer followed by them, the
    filter state is the old one, and the view is a sublist of the buffer:
    the buffer with every message kept or dropped by the test [shown] on
    that message alone, so nothing is reordered, merged or cut. *)
Theorem render_preserves_insertion_order (d : Dialog) (appended : list string) :
  let d' := fold_left (λ d message, append_text_slot lower message d)
                      appended d in
  logMessages d' = logMessages d ++ appended
  ∧ filterList d' = filterList d
  ∧ filterLineEdit d' = filterLineEdit d
  ∧ render lower d' `sublist_of` logMessages d'
  ∧ render lower d' = List.filter (shown lower d') (logMessages d')
  ∧ (appended ≠ [] → textEdit d' = render lower d').
Proof.
  simpl. split; [| split; [| split; [| split; [| split]]]].
  - induction appended as [|m appended IH] using rev_ind.
    + by rewrite app_nil_r.
    + rewrite append_run_snoc, append_text_slot_eq. simpl.
      by rewrite IH, app_assoc.
  - induction appended as [|m appended IH] using rev_ind; [done |].
    by rewrite append_run_snoc, append_text_slot_eq.
  - induction appended as [|m appended IH] using rev_ind; [done |].
    by rewrite append_run_snoc, append_text_slot_eq.
  - rewrite render_shown. apply filter_sublist.
  - apply render_shown.
  - destruct appended as [|m appended _] using rev_ind; [done |].
    intros _. rewrite append_run_snoc. apply textEdit_append_text_slot.
Qed.

(** C7. Clearing the log empties the buffer and the view and leaves the
    filter items, their ticks and the quick filter text as they were. *)
Theorem clear_log_window_keeps_filters (d : Dialog) :
  logMessages (clear_log_window d) = []
  ∧ textEdit (clear_log_window d) = []
  ∧ render lower (clear_log_window d) = []
  ∧ filterList (clear_log_window d) = filterList d
  ∧ filterLineEdit (clear_log_window d) = filterLineEdit d.
Proof.
  repeat split. by rewrite render_shown.
Qed.

End WithLower.

(** The scenarios of the specification, run with ASCII lowering. *)

Example scenario_error_ticked :
  render ascii_lower
    (mkDialog ["INFO start"; "ERROR bad thing"; "INFO done"] ""
              [mkItem "error" Checked] [])
  = ["ERROR bad thing"].
Proof. reflexivity. Qed.

Example scenario_error_unticked_quick_info :
  render ascii_lower
    (mkDialog ["INFO start"; "ERROR bad thing"; "INFO done"] "info"
              [mkItem "error" Unchecked] [])
  = ["INFO start"; "INFO done"].
Proof. reflexivity. Qed.

Example scenario_same_word_twice :
  let d := add_filter_word ascii_lower
             (add_filter_word ascii_lower
                (mkDialog ["INFO start"; "ERROR bad thing"] "error" [] [])) in
  filterList d = [mkItem "error" Unchecked; mkItem "error" Unchecked]
  ∧ render ascii_lower
      (item_setCheckState ascii_lower 0 Unchecked
         (item_setCheckState ascii_lower 1 Checked
            (item_setCheckState ascii_lower 0 Checked
               (filterLineEdit_setText ascii_lower "" d))))
    = ["ERROR bad thing"].
Proof. split; reflexivity. Qed.

Example scenario_appends_keep_repeats :
  let d := fold_left (λ d message, append_text_slot ascii_lower message d)
             ["warn: b"; "WARN: a"; "info"; "warn: b"]
             (item_setCheckState ascii_lower 0 Checked
                (add_filter_word ascii_lower
                   (filterLineEdit_setText ascii_lower "Warn" init))) in
  logMessages d = ["warn: b"; "WARN: a"; "info"; "warn: b"]
  ∧ textEdit d = ["warn: b"; "WARN: a"; "warn: b"].
Proof. split; reflexivity. Qed.

Lemma render_ticked_filters_any_word_witness :
  render ascii_lower
    (mkDialog ["INFO start"; "ERROR bad thing"; "INFO done"] "info"
              [mkItem "error" Checked] [])
  = render ascii_lower
      (mkDialog ["INFO start"; "ERROR bad thing"; "INFO done"] ""
                [mkItem "error" Checked] [])
  ∧ render ascii_lower
      (mkDialog ["INFO start"; "ERROR bad thing"; "INFO done"] ""
                [mkItem "error" Checked] [])
    = ["ERROR bad thing"].
Proof.
  split; [| reflexivity].
  refine (proj2 (proj2 (render_ticked_filters_any_word ascii_lower
    (mkDialog ["INFO start"; "ERROR bad thing"; "INFO done"] ""
              [mkItem "error" Checked] []) _)) "info").
  exists (mkItem "error" Checked). split; [apply list_elem_of_here | reflexivity].
Defined.

Lemma render_quick_filter_fallback_witness :
  render ascii_lower
    (mkDialog ["INFO start"; "ERROR bad thing"; "INFO done"] ""
              [mkItem "error" Unchecked] [])
  = ["INFO start"; "ERROR bad thing"; "INFO done"]
  ∧ ∃ keep : string → bool,
      render ascii_lower
        (mkDialog ["INFO start"; "ERROR bad thing"; "INFO done"] ""
                  [mkItem "error" Unchecked] [])
      = List.filter keep ["INFO start"; "ERROR bad thing"; "INFO done"].
Proof.
  assert (Hnone : ∀ it, it ∈ [mkItem "error" Unchecked] →
                        checkState it ≠ Checked).
  { intros it Hin. apply list_elem_of_singleton in Hin. by rewrite Hin. }
  destruct (render_quick_filter_fallback ascii_lower
              (mkDialog ["INFO start"; "ERROR bad thing"; "INFO done"] ""
                        [mkItem "error" Unchecked] [])
              eq_refl Hnone) as ((keep & Hkeep & _) & _ & Hall).
  split; [exact (Hall eq_refl) | exists keep; exact Hkeep].
Defined.

(** C5, as stated, fails on blank text: a line edit holding one space is
    not empty, so Enter adds an item for it. *)
Lemma add_filter_word_blank_counterexample :
  all_space " " = true
  ∧ filterList (mkDialog ["INFO start"] " " [] ["INFO start"]) = []
  ∧ filterList (add_filter_word ascii_lower
                  (mkDialog ["INFO start"] " " [] ["INFO start"]))
    = [mkItem " " Unchecked]
  ∧ add_filter_word ascii_lower (mkDialog ["INFO start"] " " [] ["INFO start"])
    ≠ mkDialog ["INFO start"] " " [] ["INFO start"].
Proof. repeat split. discriminate. Qed.

End DebugViewProps.

(** ** The client settings dialog: credentials and the settings file *)

Module ClientSettingsProps.
Import PyStr Json ClientSettings.

Lemma truthy_iff (s : string) : truthy s = true ↔ s ≠ "".
Proof. destruct s; simpl; split; congruence. Qed.

Lemma save_environment_variable_empty (var_name : string) (w : World) :
  save_environment_variable var_name "" w = w.
Proof. reflexivity. Qed.

Lemma save_environment_variable_files (var_name value : string) (w : World) :
  files (save_environment_variable var_name value w) = files w.
Proof.
  unfold save_environment_variable.
  by destruct (truthy value && negb (startswith value "*******")).
Qed.

Lemma save_environment_variable_other (var_name value other : string) (w : World) :
  var_name ≠ other →
  environ (save_environment_variable var_name value w) !! other
  = environ w !! other.
Proof.
  intros Hne. unfold save_environment_variable.
  destruct (truthy value && negb (startswith value "*******")); simpl; [| done].
  by rewrite lookup_insert_ne.
Qed.

(** What is in a variable after [save_environment_variable]: the value, when
    it is non-empty and does not start with seven stars; what was there
    before, otherwise. *)
Lemma save_environment_variable_same (var_name value : string) (w : World) :
  environ (save_environment_variable var_name value w) !! var_name
  = if truthy value && negb (startswith value "*******")
    then Some value else environ w !! var_name.
Proof.
  unfold save_environment_variable.
  destruct (truthy value && negb (startswith value "*******")); simpl; [| done].
  by rewrite lookup_insert_eq.
Qed.

(** The three writes of a successful [apply_settings], in its order. *)
Lemma apply_settings_accepted (str_value : AIClientType → option string)
    (d : Dialog) (w w' : World) :
  apply_settings str_value d w = (Accepted, w') →
  w' = save_settings
         (dumps_indent4 [("ai_client_type", clientSelection d);
                         ("model", model_selection d);
                         ("api_version", azure_api_version_input d)])
         (save_environment_variable "AZURE_OPENAI_ENDPOINT" (azure_endpoint_input d)
            (save_environment_variable "AZURE_OPENAI_API_KEY" (azure_api_key_input d)
               (save_environment_variable "OPENAI_API_KEY" (openai_api_key_input d) w))).
Proof.
  unfold apply_settings.
  destruct (str_eq_member str_value (clientSelection d) OPEN_AI
            && negb (truthy (openai_api_key_input d))); [discriminate |].
  destruct (str_eq_member str_value (clientSelection d) AZURE_OPEN_AI
            && (negb (truthy (azure_api_key_input d))
                || negb (truthy (azure_endpoint_input d)))); [discriminate |].
  by intros [= <-].
Qed.

(** A refused [apply_settings] hands the world back as it got it. *)
Lemma apply_settings_critical (str_value : AIClientType → option string)
    (d : Dialog) (w w' : World) (title text : string) :
  apply_settings str_value d w = (Critical title text, w') → w' = w.
Proof.
  unfold apply_settings.
  destruct (str_eq_member str_value (clientSelection d) OPEN_AI
            && negb (truthy (openai_api_key_input d))); [by intros [= _ _ <-] |].
  destruct (str_eq_member str_value (clientSelection d) AZURE_OPEN_AI
            && (negb (truthy (azure_api_key_input d))
                || negb (truthy (azure_endpoint_input d)))); [by intros [= _ _ <-] |].
  discriminate.
Qed.

(** With a plain [Enum], neither comparison of [apply_settings] can hold, so
    no state of the dialog is refused. *)
Lemma apply_settings_plain_enum_accepts (d : Dialog) (w : World) :
  (apply_settings plain_enum d w).1 = Accepted.
Proof. reflexivity. Qed.

(** Were the selected text compared with the members' names, the way
    [set_initial_states] does it, the two checks would refuse what they are
    written for, and write nothing. *)
Lemma apply_settings_by_name_validates (d : Dialog) (w : World) :
  (clientSelection d = "OPEN_AI" → openai_api_key_input d = "" →
     apply_settings name_valued_enum d w
     = (Critical "Error"
          "OpenAI API Key is required when applying OpenAI settings.", w))
  ∧ (clientSelection d = "AZURE_OPEN_AI" →
     azure_api_key_input d = "" ∨ azure_endpoint_input d = "" →
     apply_settings name_valued_enum d w
     = (Critical "Error"
          "Azure OpenAI API Key and Endpoint are required when applying Azure OpenAI settings.", w)).
Proof.
  unfold apply_settings, str_eq_member, name_valued_enum. simpl. split.
  - by intros -> ->.
  - intros -> [-> | ->]; simpl; [done |].
    by rewrite orb_true_r.
Qed.

(** C1, on the code. The selected client is the text of the combo box, and
    [apply_settings] compares that text with the enum members themselves.
    With [AIClientType] a plain [Enum] the Azure dialog below, its key field
    empty, is accepted: the endpoint goes to the environment and the settings
    file is written. *)
Theorem apply_settings_plain_enum_skips_validation :
  let d := mkDialog ∅ "AZURE_OPEN_AI" "" ""
             "https://example.openai.azure.com/" "2023-09-01-preview" "gpt-4" in
  let w := mkWorld ∅ ∅ in
  ∃ w',
    apply_settings plain_enum d w = (Accepted, w')
    ∧ files w !! file_path = None
    ∧ files w' !! file_path
      = Some (dumps_indent4 [("ai_client_type", "AZURE_OPEN_AI");
                             ("model", "gpt-4");
                             ("api_version", "2023-09-01-preview")])
    ∧ environ w !! "AZURE_OPENAI_ENDPOINT" = None
    ∧ environ w' !! "AZURE_OPENAI_ENDPOINT"
      = Some "https://example.openai.azure.com/".
Proof.
  simpl. eexists. split; [reflexivity |].
  repeat split; simpl; by rewrite ?lookup_insert_eq.
Qed.

(** A key of eleven characters or more is shown with at least seven stars
    in front, and that is what [save_environment_variable] looks for. *)
Lemma obscured_long_key_not_saved (var_name key : string) (w : World) :
  (11 ≤ String.length key)%nat →
  startswith (obscured_key key) "*******" = true
  ∧ save_environment_variable var_name (obscured_key key) w = w.
Proof.
  intros Hlen.
  assert (Hstars : startswith (obscured_key key) "*******" = true).
  { unfold obscured_key, repeat_char, startswith.
    assert (∃ k, Z.to_nat (Z.of_nat (String.length key) - 4) = (7 + k)%nat)
      as [k ->] by (exists (String.length key - 11)%nat; lia).
    apply PyStrFacts.prefix_iff.
    by exists (string_of_list_ascii (List.repeat "*"%char k)
               +:+ slice_from_neg (-4) key). }
  split; [done |].
  unfold save_environment_variable. rewrite Hstars. simpl.
  by rewrite andb_false_r.
Qed.

(** C4, on the code. A stored key of eight characters is shown with four
    stars; Apply, with the fields left as the dialog filled them, takes that
    text for a new key and stores it in place of the secret. The Azure key,
    thirty-two characters long, is recognised and left alone. *)
Theorem obscured_short_key_written_back (str_value : AIClientType → option string) :
  let w := mkWorld
             {[ "OPENAI_API_KEY" := "abcdefgh";
                "AZURE_OPENAI_API_KEY" := "0123456789abcdef0123456789abcdef";
                "AZURE_OPENAI_ENDPOINT" := "https://example.openai.azure.com/" ]}
             ∅ in
  let d := set_initial_states_credentials w
             (mkDialog ∅ "OPEN_AI" "" "" "" "" "gpt-4") in
  openai_api_key_input d = obscured_key "abcdefgh"
  ∧ openai_api_key_input d = "****efgh"
  ∧ ∃ w',
      apply_settings str_value d w = (Accepted, w')
      ∧ environ w !! "OPENAI_API_KEY" = Some "abcdefgh"
      ∧ environ w' !! "OPENAI_API_KEY" = Some "****efgh"
      ∧ environ w' !! "AZURE_OPENAI_API_KEY"
        = Some "0123456789abcdef0123456789abcdef".
Proof.
  intros w d.
  assert (Hd : d = mkDialog ∅ "OPEN_AI" "****efgh"
                     "****************************cdef"
                     "https://example.openai.azure.com/" "" "gpt-4")
    by (vm_compute; reflexivity).
  rewrite Hd. split; [reflexivity |]. split; [reflexivity |].
  unfold apply_settings. cbn [clientSelection openai_api_key_input
    azure_api_key_input azure_endpoint_input azure_api_version_input
    model_selection].
  change (truthy "****efgh") with true.
  change (truthy "****************************cdef") with true.
  change (truthy "https://example.openai.azure.com/") with true.
  rewrite !andb_false_r.
  eexists. split; [reflexivity |].
  repeat split; vm_compute; reflexivity.
Qed.

Lemma to_dict_three_fields (client model version : string) :
  to_dict [("ai_client_type", client); ("model", model); ("api_version", version)]
  = {[ "ai_client_type" := client; "model" := model; "api_version" := version ]}.
Proof.
  apply map_eq. intros key. unfold to_dict. simpl.
  destruct (decide (key = "ai_client_type")) as [-> | ?]; [by simplify_map_eq |].
  destruct (decide (key = "model")) as [-> | ?]; [by simplify_map_eq |].
  destruct (decide (key = "api_version")) as [-> | ?]; by simplify_map_eq.
Qed.

(** Whatever the three fields hold when Apply is accepted, a new instance
    loads them back: the file is the dump of the three, and the dump parses
    to what was dumped. *)
Lemma apply_then_load_fields (str_value : AIClientType → option string)
    (d : Dialog) (w w' : World) :
  apply_settings str_value d w = (Accepted, w') →
  files w' !! file_path
  = Some (dumps_indent4 [("ai_client_type", clientSelection d);
                         ("model", model_selection d);
                         ("api_version", azure_api_version_input d)])
  ∧ (∀ path, path ≠ file_path → files w' !! path = files w !! path)
  ∧ init_settings w'
    = inr {[ "ai_client_type" := clientSelection d;
             "model" := model_selection d;
             "api_version" := azure_api_version_input d ]}.
Proof.
  intros Happly. apply apply_settings_accepted in Happly.
  assert (Hfile : files w' !! file_path
                  = Some (dumps_indent4
                            [("ai_client_type", clientSelection d);
                             ("model", model_selection d);
                             ("api_version", azure_api_version_input d)])).
  { rewrite Happly. unfold save_settings. cbn [files].
    by rewrite lookup_insert_eq. }
  split; [done |]. split.
  - intros path Hpath. rewrite Happly. unfold save_settings. cbn [files].
    rewrite lookup_insert_ne by done.
    by rewrite !save_environment_variable_files.
  - unfold init_settings, load_settings.
    rewrite Hfile, JsonFacts.loads_dumps, to_dict_three_fields.
    by rewrite (right_id_L ∅ (∪)).
Qed.

(** C8. An accepted Apply with client [OPEN_AI], model [gpt-4] and an empty
    API version replaces the content of the settings file, and of no other
    file, by these three fields; a new instance that loads the file holds
    exactly the three of them, with the same values. *)
Theorem apply_then_load_round_trip (str_value : AIClientType → option string)
    (d : Dialog) (w w' : World) :
  clientSelection d = "OPEN_AI" →
  model_selection d = "gpt-4" →
  azure_api_version_input d = "" →
  apply_settings str_value d w = (Accepted, w') →
  files w' !! file_path
  = Some (dumps_indent4 [("ai_client_type", "OPEN_AI"); ("model", "gpt-4");
                         ("api_version", "")])
  ∧ (∀ path, path ≠ file_path → files w' !! path = files w !! path)
  ∧ init_settings w'
    = inr {[ "ai_client_type" := "OPEN_AI"; "model" := "gpt-4";
             "api_version" := "" ]}
  ∧ (∀ settings, init_settings w' = inr settings →
       settings !! "ai_client_type" = Some "OPEN_AI"
       ∧ settings !! "model" = Some "gpt-4"
       ∧ settings !! "api_version" = Some ""
       ∧ dom settings = {[ "ai_client_type"; "model"; "api_version" ]}).
Proof.
  intros Hclient Hmodel Hversion Happly.
  destruct (apply_then_load_fields str_value d w w' Happly)
    as (Hfile & Hothers & Hload).
  rewrite Hclient, Hmodel, Hversion in Hfile, Hload.
  split; [done |]. split; [done |]. split; [done |].
  intros settings Hsettings. rewrite Hload in Hsettings.
  injection Hsettings as <-. repeat split.
Qed.

(** C9. Without a settings file a new instance loads the empty mapping and
    nothing is raised; a lookup in it gives back the default it was called
    with, [""] for ["model"] with default [""]. *)
Theorem load_without_file_is_empty (w : World) :
  files w !! file_path = None →
  init_settings w = inr ∅
  ∧ (∀ settings, load_settings w settings = inr settings)
  ∧ (∀ key dflt, settings_get ∅ key dflt = dflt)
  ∧ settings_get ∅ "model" "" = "".
Proof.
  intros Hmissing. unfold init_settings, load_settings, settings_get.
  rewrite Hmissing. split; [done |]. split; [done |]. split; [| done].
  intros key dflt. by rewrite lookup_empty.
Qed.

(** C10. Saving an empty value writes nothing, whatever the variable and
    the environment; so after Apply, accepted or not, each of the three
    variables whose field was empty holds what it held before. *)
Theorem empty_field_keeps_variable (str_value : AIClientType → option string)
    (d : Dialog) (w : World) :
  (∀ var_name w0, save_environment_variable var_name "" w0 = w0)
  ∧ (openai_api_key_input d = "" →
       environ (apply_settings str_value d w).2 !! "OPENAI_API_KEY"
       = environ w !! "OPENAI_API_KEY")
  ∧ (azure_api_key_input d = "" →
       environ (apply_settings str_value d w).2 !! "AZURE_OPENAI_API_KEY"
       = environ w !! "AZURE_OPENAI_API_KEY")
  ∧ (azure_endpoint_input d = "" →
       environ (apply_settings str_value d w).2 !! "AZURE_OPENAI_ENDPOINT"
       = environ w !! "AZURE_OPENAI_ENDPOINT").
Proof.
  split; [done |].
  destruct (apply_settings str_value d w) as [[title text |] w'] eqn:Happly.
  - apply apply_settings_critical in Happly as ->. done.
  - apply apply_settings_accepted in Happly as ->.
    unfold save_settings. cbn [snd environ].
    split; [| split]; intros Hempty.
    + rewrite !save_environment_variable_other by done.
      by rewrite Hempty.
    + rewrite save_environment_variable_other by done.
      rewrite Hempty, save_environment_variable_empty.
      by rewrite save_environment_variable_other.
    + rewrite Hempty, save_environment_variable_empty.
      by rewrite !save_environment_variable_other.
Qed.

Lemma apply_then_load_round_trip_witness :
  let d := mkDialog ∅ "OPEN_AI" "sk-0123456789abcdef" "" "" "" "gpt-4" in
  let w := mkWorld ∅ {[ file_path := "{}" ]} in
  let w' := (apply_settings name_valued_enum d w).2 in
  apply_settings name_valued_enum d w = (Accepted, w')
  ∧ init_settings w'
    = inr {[ "ai_client_type" := "OPEN_AI"; "model" := "gpt-4";
             "api_version" := "" ]}.
Proof.
  intros d w w'.
  assert (Happly : apply_settings name_valued_enum d w = (Accepted, w'))
    by reflexivity.
  split; [exact Happly |].
  exact (proj1 (proj2 (proj2 (apply_then_load_round_trip name_valued_enum
                                 d w w' eq_refl eq_refl eq_refl Happly)))).
Defined.

Lemma load_without_file_is_empty_witness :
  init_settings (mkWorld {[ "OPENAI_API_KEY" := "sk-0123456789abcdef" ]} ∅)
  = inr ∅
  ∧ settings_get ∅ "model" "" = "".
Proof.
  destruct (load_without_file_is_empty
              (mkWorld {[ "OPENAI_API_KEY" := "sk-0123456789abcdef" ]} ∅)
              (lookup_empty file_path)) as (Hinit & _ & _ & Hget).
  split; [exact Hinit | exact Hget].
Defined.

End ClientSettingsProps.

(** ** The debug view: further properties of the filter and the events *)

Module DebugViewMore.
Import PyStr DebugView DebugViewEvents DebugViewProps.

Section WithLower.

Variable lower : string → string.

Lemma shown_same_filters (d1 d2 : Dialog) (message : string) :
  filterList d1 = filterList d2 →
  filterLineEdit d1 = filterLineEdit d2 →
  shown lower d1 message = shown lower d2 message.
Proof. unfold shown. by intros -> ->. Qed.

Lemma filter_sublist_impl (p q : string → bool) (l : list string) :
  (∀ x, p x = true → q x = true) →
  List.filter p l `sublist_of` List.filter q l.
Proof.
  intros Hpq. induction l as [|x l IH]; simpl; [constructor |].
  destruct (p x) eqn:Hp.
  - rewrite (Hpq x Hp). by constructor.
  - destruct (q x); [by constructor | done].
Qed.

(** X1. Applying the filter again changes nothing, and what the view held
    before plays no part in what it holds afterwards. *)
Theorem apply_filter_idempotent (d : Dialog) :
  apply_filter lower (apply_filter lower d) = apply_filter lower d
  ∧ ∀ shown_before,
      apply_filter lower
        (mkDialog (logMessages d) (filterLineEdit d) (filterList d) shown_before)
      = apply_filter lower d.
Proof.
  split; [| intros shown_before]; by rewrite !apply_filter_shown.
Qed.

(** X2. A new log line goes to the end of the buffer, and the view becomes
    the filtered old buffer followed by the line when the line passes the
    filter, and the filtered old buffer alone when it does not. *)
Theorem append_text_slot_extends_view (message : string) (d : Dialog) :
  logMessages (append_text_slot lower message d) = logMessages d ++ [message]
  ∧ textEdit (append_text_slot lower message d)
    = render lower d ++ (if shown lower d message then [message] else []).
Proof.
  rewrite append_text_slot_eq, render_shown. simpl. split; [done |].
  rewrite List.filter_app. simpl.
  by rewrite (shown_same_filters _ d message).
Qed.

(** X3. With the same buffer, a filter list that has every ticked item of
    another one ticked too shows at least what the other shows, in the same
    order. *)
Theorem more_ticked_items_show_more (d1 d2 : Dialog) :
  logMessages d1 = logMessages d2 →
  (∃ it, it ∈ filterList d1 ∧ checkState it = Checked) →
  (∀ it, it ∈ filterList d1 → checkState it = Checked → it ∈ filterList d2) →
  render lower d1 `sublist_of` render lower d2.
Proof.
  intros Hbuffer Hany Hmore. rewrite !render_shown, Hbuffer.
  apply filter_sublist_impl. intros message.
  assert (Hany2 : ∃ it, it ∈ filterList d2 ∧ checkState it = Checked).
  { destruct Hany as (it & Hin & Hc). exists it. split; [by apply Hmore | done]. }
  apply any_checked_iff in Hany, Hany2.
  rewrite !shown_ticked by done.
  intros (it & Hin & Hc & Hsub). exists it. split; [by apply Hmore | done].
Qed.

Lemma lowered_items_same (items1 items2 : list QListWidgetItem) :
  Forall2 (λ a b, checkState a = checkState b
                  ∧ lower (item_text a) = lower (item_text b)) items1 items2 →
  existsb is_checked items1 = existsb is_checked items2
  ∧ List.map (λ it, lower (item_text it)) (List.filter is_checked items1)
    = List.map (λ it, lower (item_text it)) (List.filter is_checked items2).
Proof.
  induction 1 as [|a b items1 items2 [Hstate Htext] _ [IHany IHmap]];
    [done |].
  assert (Hticked : is_checked a = is_checked b).
  { unfold is_checked. by rewrite Hstate. }
  simpl. rewrite Hticked, IHany.
  destruct (is_checked b); simpl; by rewrite ?IHmap, ?Htext.
Qed.

(** X4. Letter case in the filter words does not matter: two filter states
    over the same buffer whose quick filter texts, and whose item texts row
    by row, are equal once lowered, with the same ticks, show the same. *)
Theorem filter_words_compared_lowered (d1 d2 : Dialog) :
  logMessages d1 = logMessages d2 →
  lower (filterLineEdit d1) = lower (filterLineEdit d2) →
  Forall2 (λ a b, checkState a = checkState b
                  ∧ lower (item_text a) = lower (item_text b))
          (filterList d1) (filterList d2) →
  render lower d1 = render lower d2.
Proof.
  intros Hbuffer Hquick [Hany Hmap]%lowered_items_same.
  rewrite !render_shown, Hbuffer. apply filter_ext. intros message.
  unfold shown. by rewrite Hany, Hmap, Hquick.
Qed.

(** Every slot leaves the view equal to the filtered buffer, if it found it
    so. *)
Lemma handle_in_sync (d : Dialog) (event : Event) :
  textEdit d = render lower d →
  textEdit (handle lower d event) = render lower (handle lower d event).
Proof.
  intros Hsync. destruct event as [message | text | | row state |]; simpl.
  - apply textEdit_append_text_slot.
  - unfold filterLineEdit_setText. by rewrite render_apply_filter.
  - unfold add_filter_word. destruct (negb (truthy (filterLineEdit d))); [done |].
    by rewrite render_apply_filter.
  - unfold item_setCheckState. destruct (filterList d !! row); [| done].
    by rewrite render_apply_filter.
  - by rewrite render_shown.
Qed.

Lemma run_in_sync (events : list Event) (d : Dialog) :
  textEdit d = render lower d →
  textEdit (run lower events d) = render lower (run lower events d).
Proof.
  revert d. induction events as [|event events IH]; intros d Hsync; [done |].
  apply IH. by apply handle_in_sync.
Qed.

(** X5. Whatever log lines arrive and whatever the user types, ticks,
    adds or clears, in any order, the view of a dialog holds exactly the
    buffer filtered by the current filter state. *)
Theorem view_always_filtered_buffer (events : list Event) :
  textEdit (run lower events init)
  = render lower (run lower events init)
  ∧ textEdit (run lower events init)
    = List.filter (shown lower (run lower events init))
                  (logMessages (run lower events init)).
Proof.
  assert (Hsync : textEdit (run lower events init)
                  = render lower (run lower events init))
    by (apply run_in_sync; by rewrite render_shown).
  split; [done |]. by rewrite Hsync, render_shown.
Qed.

Lemma handle_filter_texts (d : Dialog) (event : Event) :
  (item_text <$> filterList d)
    `prefix_of` (item_text <$> filterList (handle lower d event)).
Proof.
  destruct event as [message | text | | row state |]; simpl.
  - by rewrite append_text_slot_eq.
  - unfold filterLineEdit_setText. by rewrite apply_filter_shown.
  - unfold add_filter_word. destruct (negb (truthy (filterLineEdit d))); [done |].
    rewrite apply_filter_shown. simpl. rewrite fmap_app. by apply prefix_app_r.
  - unfold item_setCheckState. destruct (filterList d !! row) as [it |] eqn:Hrow;
      [| done].
    rewrite apply_filter_shown. simpl.
    rewrite list_fmap_insert. simpl.
    rewrite list_insert_id; [done |]. by rewrite list_lookup_fmap, Hrow.
  - done.
Qed.

(** X6. No event removes, renames or reorders a filter item: the texts of
    the items a dialog has stay, in their order, the first texts of the
    list after any run of events. *)
Theorem filter_items_only_added (events : list Event) (d : Dialog) :
  (item_text <$> filterList d)
    `prefix_of` (item_text <$> filterList (run lower events d)).
Proof.
  revert d. induction events as [|event events IH]; intros d; [done |].
  simpl. etrans; [apply (handle_filter_texts d event) | apply IH].
Qed.

Lemma append_run_state (messages : list string) (d : Dialog) :
  logMessages (run lower (AppendText <$> messages) d) = logMessages d ++ messages
  ∧ filterList (run lower (AppendText <$> messages) d) = filterList d
  ∧ filterLineEdit (run lower (AppendText <$> messages) d) = filterLineEdit d.
Proof.
  unfold run. revert d. induction messages as [|m messages IH]; intros d.
  - simpl. by rewrite app_nil_r.
  - destruct (IH (append_text_slot lower m d)) as (Hl & Hf & Hq).
    rewrite fmap_cons. cbn [fold_left handle].
    rewrite Hl, Hf, Hq, append_text_slot_eq. simpl.
    by rewrite <- app_assoc.
Qed.

(** X7. After Clear, the buffer holds the lines that arrived since, and
    the view holds those of them that pass the filter, which Clear left as
    it was. *)
Theorem clear_then_append (messages : list string) (d : Dialog) :
  let d' := run lower (ClearClicked :: (AppendText <$> messages)) d in
  logMessages d' = messages
  ∧ textEdit d' = List.filter (shown lower d) messages
  ∧ filterList d' = filterList d
  ∧ filterLineEdit d' = filterLineEdit d.
Proof.
  simpl.
  destruct (append_run_state messages (clear_log_window d)) as (Hl & Hf & Hq).
  change (fold_left (handle lower) (AppendText <$> messages) (clear_log_window d))
    with (run lower (AppendText <$> messages) (clear_log_window d)).
  rewrite Hl, Hf, Hq. simpl. repeat split.
  rewrite run_in_sync by (by rewrite render_shown).
  rewrite render_shown, Hl. simpl. apply filter_ext. intros message.
  by apply shown_same_filters.
Qed.

End WithLower.

Lemma more_ticked_items_show_more_witness :
  render ascii_lower
    (mkDialog ["INFO start"; "ERROR bad thing"; "INFO done"] ""
              [mkItem "error" Checked; mkItem "done" Unchecked] [])
  `sublist_of`
  render ascii_lower
    (mkDialog ["INFO start"; "ERROR bad thing"; "INFO done"] "x"
              [mkItem "done" Checked; mkItem "error" Checked] []).
Proof.
  apply (more_ticked_items_show_more ascii_lower); [reflexivity | |].
  - exists (mkItem "error" Checked). split; [apply list_elem_of_here | reflexivity].
  - intros it Hin Hticked.
    apply elem_of_cons in Hin as [-> | Hin];
      [apply list_elem_of_further, list_elem_of_here |].
    apply list_elem_of_singleton in Hin as ->. discriminate.
Defined.

Lemma filter_words_compared_lowered_witness :
  render ascii_lower
    (mkDialog ["INFO start"; "ERROR bad thing"; "INFO done"] "Info"
              [mkItem "Error" Unchecked] [])
  = render ascii_lower
      (mkDialog ["INFO start"; "ERROR bad thing"; "INFO done"] "INFO"
                [mkItem "ERROR" Unchecked] []).
Proof.
  apply (filter_words_compared_lowered ascii_lower); [reflexivity | reflexivity |].
  repeat constructor.
Defined.

End DebugViewMore.

(** ** The client settings dialog: masking, Apply and reopening *)

Module ClientSettingsMore.
Import PyStr Json ClientSettings ClientSettingsProps.

Lemma repeat_char_length (c : ascii) (n : Z) :
  String.length (repeat_char c n) = Z.to_nat n.
Proof.
  unfold repeat_char. induction (Z.to_nat n) as [|k IH]; simpl; congruence.
Qed.

Lemma drop_length (n : nat) (s : string) :
  String.length (drop n s) = (String.length s - n)%nat.
Proof.
  revert s. induction n as [|n IH]; intros [|c s]; simpl; auto.
Qed.

Lemma drop_app_length (front rest : string) :
  drop (String.length front) (front +:+ rest) = rest.
Proof. induction front as [|c front IH]; simpl; [by destruct rest | done]. Qed.

(** X8. The text shown for a stored key is as long as the key; it is the
    key's last four characters behind one star for each character before
    them. *)
Theorem obscured_key_stars_then_last_four (key : string) :
  String.length (obscured_key key) = String.length key
  ∧ ∀ front last_four,
      key = front +:+ last_four →
      String.length last_four = 4%nat →
      obscured_key key
      = string_of_list_ascii (List.repeat "*"%char (String.length front))
        +:+ last_four.
Proof.
  unfold obscured_key, slice_from_neg. split.
  - rewrite JsonFacts.string_app_length, repeat_char_length, drop_length. lia.
  - intros front last_four -> Hfour. unfold repeat_char.
    rewrite JsonFacts.string_app_length, Hfour.
    replace (Z.to_nat (Z.of_nat (String.length front + 4) - 4))
      with (String.length front) by lia.
    replace (Z.to_nat (Z.max 0 (Z.of_nat (String.length front + 4) + -4)))
      with (String.length front) by lia.
    by rewrite drop_app_length.
Qed.

(** X9. A stored key of at most four characters is not masked at all: the
    field shows the key itself. *)
Theorem short_key_shown_in_full (input_field : KeyInput) (env_var key : string)
    (w : World) (d : Dialog) :
  environ w !! env_var = Some key →
  key ≠ "" →
  (String.length key ≤ 4)%nat →
  obscured_key key = key
  ∧ set_key_input_value input_field env_var w d = input_setText input_field key d.
Proof.
  intros Hvar Hkey Hlen.
  assert (Hsame : obscured_key key = key).
  { unfold obscured_key, slice_from_neg, repeat_char.
    replace (Z.to_nat (Z.of_nat (String.length key) - 4)) with 0%nat by lia.
    replace (Z.to_nat (Z.max 0 (Z.of_nat (String.length key) + -4)))
      with 0%nat by lia.
    reflexivity. }
  split; [done |].
  unfold set_key_input_value, getenv. rewrite Hvar. simpl.
  apply truthy_iff in Hkey. by rewrite Hkey, Hsame.
Qed.

(** The environment after the three writes of Apply, variable by variable. *)
Lemma three_saves_lookup (openai azure endpoint var : string) (w : World) :
  environ
    (save_environment_variable "AZURE_OPENAI_ENDPOINT" endpoint
       (save_environment_variable "AZURE_OPENAI_API_KEY" azure
          (save_environment_variable "OPENAI_API_KEY" openai w))) !! var
  = if decide (var = "OPENAI_API_KEY") then
      if truthy openai && negb (startswith openai "*******")
      then Some openai else environ w !! var
    else if decide (var = "AZURE_OPENAI_API_KEY") then
      if truthy azure && negb (startswith azure "*******")
      then Some azure else environ w !! var
    else if decide (var = "AZURE_OPENAI_ENDPOINT") then
      if truthy endpoint && negb (startswith endpoint "*******")
      then Some endpoint else environ w !! var
    else environ w !! var.
Proof.
  destruct (decide (var = "OPENAI_API_KEY")) as [-> | Hopenai].
  { rewrite !save_environment_variable_other by done.
    apply save_environment_variable_same. }
  destruct (decide (var = "AZURE_OPENAI_API_KEY")) as [-> | Hazure].
  { rewrite save_environment_variable_other by done.
    rewrite save_environment_variable_same.
    by rewrite save_environment_variable_other. }
  destruct (decide (var = "AZURE_OPENAI_ENDPOINT")) as [-> | Hendpoint].
  { rewrite save_environment_variable_same.
    by rewrite !save_environment_variable_other. }
  by rewrite !save_environment_variable_other.
Qed.

(** X10. After an accepted Apply each of the three credential variables
    holds the text of its field when that text is not empty and does not
    start with seven stars, and what it held before otherwise; a text typed
    by the user that starts with seven stars is thus dropped without a
    word. *)
Theorem accepted_apply_credentials (str_value : AIClientType → option string)
    (d : Dialog) (w w' : World) :
  apply_settings str_value d w = (Accepted, w') →
  environ w' !! "OPENAI_API_KEY"
  = (if truthy (openai_api_key_input d)
        && negb (startswith (openai_api_key_input d) "*******")
     then Some (openai_api_key_input d) else environ w !! "OPENAI_API_KEY")
  ∧ environ w' !! "AZURE_OPENAI_API_KEY"
    = (if truthy (azure_api_key_input d)
          && negb (startswith (azure_api_key_input d) "*******")
       then Some (azure_api_key_input d)
       else environ w !! "AZURE_OPENAI_API_KEY")
  ∧ environ w' !! "AZURE_OPENAI_ENDPOINT"
    = (if truthy (azure_endpoint_input d)
          && negb (startswith (azure_endpoint_input d) "*******")
       then Some (azure_endpoint_input d)
       else environ w !! "AZURE_OPENAI_ENDPOINT").
Proof.
  intros ->%apply_settings_accepted. unfold save_settings. cbn [environ].
  by rewrite !three_saves_lookup.
Qed.

(** X11. Apply, accepted or refused, changes no environment variable other
    than the three credential variables and no file other than the settings
    file. *)
Theorem apply_settings_touches_nothing_else
    (str_value : AIClientType → option string) (d : Dialog) (w : World) :
  (∀ var,
     var ≠ "OPENAI_API_KEY" → var ≠ "AZURE_OPENAI_API_KEY" →
     var ≠ "AZURE_OPENAI_ENDPOINT" →
     environ (apply_settings str_value d w).2 !! var = environ w !! var)
  ∧ (∀ path,
       path ≠ file_path →
       files (apply_settings str_value d w).2 !! path = files w !! path).
Proof.
  destruct (apply_settings str_value d w) as [[title text |] w'] eqn:Happly.
  - by apply apply_settings_critical in Happly as ->.
  - apply apply_settings_accepted in Happly as ->.
    unfold save_settings. cbn [snd environ files]. split.
    + intros var H1 H2 H3. by rewrite !save_environment_variable_other.
    + intros path Hpath. rewrite lookup_insert_ne by done.
      by rewrite !save_environment_variable_files.
Qed.

Lemma world_eq (w1 w2 : World) :
  environ w1 = environ w2 → files w1 = files w2 → w1 = w2.
Proof. destruct w1, w2. simpl. by intros -> ->. Qed.

(** A field filled from a variable that is unset, empty, or eleven
    characters or longer is not written back. *)
Lemma filled_key_not_saved (input_field : KeyInput) (env_var var_name : string)
    (w w0 : World) (d : Dialog) :
  getenv w env_var "" = "" ∨ (11 ≤ String.length (getenv w env_var ""))%nat →
  save_environment_variable var_name
    (if truthy (getenv w env_var "") then obscured_key (getenv w env_var "")
     else "") w0
  = w0.
Proof.
  intros [-> | Hlong]; [done |].
  destruct (truthy (getenv w env_var "")); [| done].
  by apply obscured_long_key_not_saved.
Qed.

(** X12. When the dialog is opened on empty key fields and Apply is
    accepted with the credential fields left as they were filled, the
    environment is what it was, provided each stored key is unset, empty, or
    at least eleven characters long. *)
Theorem open_then_apply_keeps_environment
    (str_value : AIClientType → option string) (d0 : Dialog) (w w' : World) :
  openai_api_key_input d0 = "" →
  azure_api_key_input d0 = "" →
  getenv w "OPENAI_API_KEY" "" = ""
  ∨ (11 ≤ String.length (getenv w "OPENAI_API_KEY" ""))%nat →
  getenv w "AZURE_OPENAI_API_KEY" "" = ""
  ∨ (11 ≤ String.length (getenv w "AZURE_OPENAI_API_KEY" ""))%nat →
  apply_settings str_value (set_initial_states_credentials w d0) w
  = (Accepted, w') →
  environ w' = environ w.
Proof.
  intros Hopenai0 Hazure0 Hopenai Hazure ->%apply_settings_accepted.
  unfold save_settings. cbn [environ].
  assert (Hfields :
    openai_api_key_input (set_initial_states_credentials w d0)
    = (if truthy (getenv w "OPENAI_API_KEY" "")
       then obscured_key (getenv w "OPENAI_API_KEY" "") else "")
    ∧ azure_api_key_input (set_initial_states_credentials w d0)
      = (if truthy (getenv w "AZURE_OPENAI_API_KEY" "")
         then obscured_key (getenv w "AZURE_OPENAI_API_KEY" "") else "")
    ∧ azure_endpoint_input (set_initial_states_credentials w d0)
      = getenv w "AZURE_OPENAI_ENDPOINT" "").
  { unfold set_initial_states_credentials, set_key_input_value.
    destruct (truthy (getenv w "OPENAI_API_KEY" ""));
      destruct (truthy (getenv w "AZURE_OPENAI_API_KEY" "")); simpl;
      by rewrite ?Hopenai0, ?Hazure0. }
  destruct Hfields as (-> & -> & ->).
  rewrite (filled_key_not_saved OpenAIKeyInput _ _ w w d0 Hopenai).
  rewrite (filled_key_not_saved AzureKeyInput _ _ w w d0 Hazure).
  unfold save_environment_variable, getenv.
  destruct (environ w !! "AZURE_OPENAI_ENDPOINT") as [endpoint |] eqn:Hendpoint;
    simpl; [| done].
  destruct (truthy endpoint && negb (startswith endpoint "*******")); [| done].
  simpl. by apply insert_id.
Qed.

(** X13. Pressing Apply again on the same fields changes nothing more: the
    second Apply is accepted as the first was and leaves the environment
    and the files as the first left them. *)
Theorem apply_settings_twice (str_value : AIClientType → option string)
    (d : Dialog) (w w' : World) :
  apply_settings str_value d w = (Accepted, w') →
  apply_settings str_value d w' = (Accepted, w').
Proof.
  intros Hfirst.
  destruct (apply_settings str_value d w') as [outcome w''] eqn:Hsecond.
  assert (outcome = Accepted) as ->.
  { revert Hfirst Hsecond. unfold apply_settings.
    destruct (str_eq_member str_value (clientSelection d) OPEN_AI
              && negb (truthy (openai_api_key_input d))); [discriminate |].
    destruct (str_eq_member str_value (clientSelection d) AZURE_OPEN_AI
              && (negb (truthy (azure_api_key_input d))
                  || negb (truthy (azure_endpoint_input d)))); [discriminate |].
    by intros _ [= <- _]. }
  f_equal.
  apply apply_settings_accepted in Hfirst, Hsecond. subst w''.
  apply world_eq.
  - apply map_eq. intros var. unfold save_settings at 1. cbn [environ].
    rewrite three_saves_lookup. subst w'. unfold save_settings. cbn [environ].
    rewrite !three_saves_lookup.
    repeat case_decide; repeat case_match; done.
  - subst w'. unfold save_settings. cbn [files].
    rewrite !save_environment_variable_files. cbn [files].
    by rewrite insert_insert_eq.
Qed.

(** X14. Whatever text the client, model and version fields hold when Apply
    is accepted, a new instance reads those three values back from the
    settings file, and finds no other key in it. *)
Theorem accepted_apply_read_back (str_value : AIClientType → option string)
    (d : Dialog) (w w' : World) :
  apply_settings str_value d w = (Accepted, w') →
  ∃ settings,
    init_settings w' = inr settings
    ∧ (∀ dflt, settings_get settings "ai_client_type" dflt = clientSelection d)
    ∧ (∀ dflt, settings_get settings "model" dflt = model_selection d)
    ∧ (∀ dflt,
         settings_get settings "api_version" dflt = azure_api_version_input d)
    ∧ (∀ key dflt,
         key ≠ "ai_client_type" → key ≠ "model" → key ≠ "api_version" →
         settings_get settings key dflt = dflt).
Proof.
  intros (_ & _ & Hload)%apply_then_load_fields.
  eexists. split; [exact Hload |]. unfold settings_get.
  repeat split; intros; by simplify_map_eq.
Qed.

(** X15. A refused Apply shows the error box, writes nothing, and happens
    only when one of the three credential fields is empty; with the three
    of them filled in, Apply is accepted whatever the client selection and
    however [AIClientType] is declared. *)
Theorem refused_apply_writes_nothing (str_value : AIClientType → option string)
    (d : Dialog) (w : World) :
  (∀ title text w',
     apply_settings str_value d w = (Critical title text, w') →
     w' = w ∧ title = "Error"
     ∧ (openai_api_key_input d = "" ∨ azure_api_key_input d = ""
        ∨ azure_endpoint_input d = ""))
  ∧ (openai_api_key_input d ≠ "" → azure_api_key_input d ≠ "" →
     azure_endpoint_input d ≠ "" →
     (apply_settings str_value d w).1 = Accepted).
Proof.
  unfold apply_settings. split.
  - intros title text w'.
    destruct (str_eq_member str_value (clientSelection d) OPEN_AI
              && negb (truthy (openai_api_key_input d))) eqn:Hfirst.
    { intros [= <- <- <-]. split; [done |]. split; [done |]. left.
      apply andb_true_iff in Hfirst as [_ Hempty].
      by destruct (openai_api_key_input d). }
    destruct (str_eq_member str_value (clientSelection d) AZURE_OPEN_AI
              && (negb (truthy (azure_api_key_input d))
                  || negb (truthy (azure_endpoint_input d)))) eqn:Hsecond;
      [| discriminate].
    intros [= <- <- <-]. split; [done |]. split; [done |]. right.
    apply andb_true_iff in Hsecond as [_ Hempty].
    apply orb_true_iff in Hempty as [Hempty | Hempty]; [left | right].
    + by destruct (azure_api_key_input d).
    + by destruct (azure_endpoint_input d).
  - intros Hopenai%truthy_iff Hazure%truthy_iff Hendpoint%truthy_iff.
    rewrite Hopenai, Hazure, Hendpoint. simpl. by rewrite !andb_false_r.
Qed.

Lemma short_key_shown_in_full_witness :
  obscured_key "abc" = "abc"
  ∧ openai_api_key_input
      (set_key_input_value OpenAIKeyInput "OPENAI_API_KEY"
         (mkWorld {[ "OPENAI_API_KEY" := "abc" ]} ∅)
         (mkDialog ∅ "OPEN_AI" "" "" "" "" ""))
    = "abc".
Proof.
  destruct (short_key_shown_in_full OpenAIKeyInput "OPENAI_API_KEY" "abc"
              (mkWorld {[ "OPENAI_API_KEY" := "abc" ]} ∅)
              (mkDialog ∅ "OPEN_AI" "" "" "" "" "")
              (lookup_singleton_eq _ _) ltac:(discriminate) ltac:(simpl; lia))
    as [Hsame Hfield].
  split; [exact Hsame |]. by rewrite Hfield.
Defined.

Lemma accepted_apply_credentials_witness :
  let d := mkDialog ∅ "OPEN_AI" "sk-0123456789abcdef" "*******typed" ""
                    "" "gpt-4" in
  let w := mkWorld {[ "AZURE_OPENAI_API_KEY" := "0123456789abcdef" ]} ∅ in
  environ (apply_settings plain_enum d w).2 !! "OPENAI_API_KEY"
  = Some "sk-0123456789abcdef"
  ∧ environ (apply_settings plain_enum d w).2 !! "AZURE_OPENAI_API_KEY"
    = Some "0123456789abcdef"
  ∧ environ (apply_settings plain_enum d w).2 !! "AZURE_OPENAI_ENDPOINT" = None.
Proof.
  intros d w.
  exact (accepted_apply_credentials plain_enum d w
           (apply_settings plain_enum d w).2 eq_refl).
Defined.

Lemma open_then_apply_keeps_environment_witness :
  let w := mkWorld
             {[ "OPENAI_API_KEY" := "sk-0123456789abcdef";
                "AZURE_OPENAI_ENDPOINT" := "https://example.openai.azure.com/" ]}
             ∅ in
  let d := set_initial_states_credentials w
             (mkDialog ∅ "OPEN_AI" "" "" "" "" "gpt-4") in
  openai_api_key_input d = "***************cdef"
  ∧ environ (apply_settings name_valued_enum d w).2 = environ w.
Proof.
  intros w d. split; [reflexivity |].
  apply (open_then_apply_keeps_environment name_valued_enum
           (mkDialog ∅ "OPEN_AI" "" "" "" "" "gpt-4") w
           (apply_settings name_valued_enum d w).2);
    [reflexivity | reflexivity | right; vm_compute; lia | left; reflexivity
    | reflexivity].
Defined.

Lemma apply_settings_twice_witness :
  let d := mkDialog ∅ "AZURE_OPEN_AI" "" "0123456789abcdef"
                    "https://example.openai.azure.com/" "2023-09-01-preview"
                    "gpt-4" in
  let w := mkWorld ∅ ∅ in
  apply_settings name_valued_enum d (apply_settings name_valued_enum d w).2
  = (Accepted, (apply_settings name_valued_enum d w).2).
Proof.
  intros d w.
  exact (apply_settings_twice name_valued_enum d w
           (apply_settings name_valued_enum d w).2 eq_refl).
Defined.

Lemma accepted_apply_read_back_witness :
  let model := String quote ("gpt\4" +:+ String newline (String "233" "")) in
  let d := mkDialog ∅ "AZURE_OPEN_AI" "" "0123456789abcdef"
                    "https://example.openai.azure.com/" " 2023 " model in
  let w := mkWorld ∅ {[ file_path := "{}" ]} in
  ∃ settings,
    init_settings (apply_settings plain_enum d w).2 = inr settings
    ∧ settings_get settings "model" "" = model
    ∧ settings_get settings "api_version" "2023-09-01-preview" = " 2023 ".
Proof.
  intros model d w.
  destruct (accepted_apply_read_back plain_enum d w
              (apply_settings plain_enum d w).2 eq_refl)
    as (settings & Hload & _ & Hmodel & Hversion & _).
  exists settings. split; [exact Hload |].
  split; [apply Hmodel | apply Hversion].
Defined.

End ClientSettingsMore.

(** ** The general settings dialog: OK *)

Module GeneralSettingsProps.
Import GeneralSettings.

Section WithFloat.

Variable float : Type.
Variable float_of_text : string → option float.

(** X16. OK takes both timeouts or neither. When both texts are numbers
    the main window gets the two values and the state of the check box and
    the dialog closes; when either is not, the warning is shown and the main
    window keeps all three of its values, the thread timeout too when only
    the run timeout is bad. *)
Theorem accept_all_or_nothing (d : Dialog) (main_window : MainWindow float) :
  (∀ thread run,
     float_of_text (threadTimeoutEdit d) = Some thread →
     float_of_text (runTimeoutEdit d) = Some run →
     accept float float_of_text d main_window
     = (Closed,
        mkMainWindow float thread run (useChatCompletionForThreadsCheckbox d)))
  ∧ (float_of_text (threadTimeoutEdit d) = None
     ∨ float_of_text (runTimeoutEdit d) = None →
     accept float float_of_text d main_window
     = (Warning "Invalid Input" "Please enter valid numbers for the timeouts.",
        main_window))
  ∧ (∀ outcome main_window',
       accept float float_of_text d main_window = (outcome, main_window') →
       main_window' = main_window
       ∨ (outcome = Closed
          ∧ float_of_text (threadTimeoutEdit d) = Some (thread_timeout float main_window')
          ∧ float_of_text (runTimeoutEdit d) = Some (run_timeout float main_window')
          ∧ use_chat_completion_for_thread_name float main_window'
            = useChatCompletionForThreadsCheckbox d)).
Proof.
  unfold accept. split; [| split].
  - by intros thread run -> ->.
  - intros [-> | ->]; [done |].
    by destruct (float_of_text (threadTimeoutEdit d)).
  - intros outcome main_window'.
    destruct (float_of_text (threadTimeoutEdit d)) as [thread |];
      [| intros [= <- <-]; by left].
    destruct (float_of_text (runTimeoutEdit d)) as [run |];
      [| intros [= <- <-]; by left].
    intros [= <- <-]. right. by repeat split.
Qed.

End WithFloat.

End GeneralSettingsProps.

(** ** The client settings dialog: what the selection code leaves behind *)

Module ModelSelectionProps.
Import PyStr ClientSettings ClientSettingsProps ModelSelection.

Lemma member_of_name_name (member : AIClientType) :
  member_of_name (name member) = Some member.
Proof. by destruct member. Qed.

Lemma member_of_name_Some (text : string) (member : AIClientType) :
  member_of_name text = Some member → text = name member.
Proof.
  unfold member_of_name.
  destruct (String.eqb_spec text (name AZURE_OPEN_AI)) as [-> | _];
    [by intros [= <-] |].
  destruct (String.eqb_spec text (name OPEN_AI)) as [-> | _];
    [by intros [= <-] | done].
Qed.

(** Adding items touches the line edit only for the first item of an empty
    box. *)
Lemma addItems_eq (ids : list string) (ws : Widgets) :
  fold_left model_selection_addItem ids ws
  = mkWidgets (match model_items ws, ids with
               | [], id :: _ => model_selection_setText id (dialog ws)
               | _, _ => dialog ws
               end)
              (openai_api_key_enabled ws) (azure_api_key_enabled ws)
              (azure_endpoint_enabled ws) (azure_api_version_enabled ws)
              (model_items ws ++ ids) (factory_calls ws) (warnings ws).
Proof.
  revert ws. induction ids as [|id ids IH]; intros ws; simpl.
  - rewrite app_nil_r. by destruct ws as [? ? ? ? ? [] ? ?].
  - rewrite IH. unfold model_selection_addItem. simpl.
    rewrite <- app_assoc. simpl.
    destruct (model_items ws) as [|item items]; simpl; [| done].
    by destruct ids.
Qed.

Section WithFactory.

Variable listing : nat → Listing.

(** What [fill_selected] leaves: the texts other than the model, the
    switches for the client it was called with, one more factory call for
    OpenAI and none for Azure, and the model of the settings in the model
    box unless the listing raised. *)
Lemma fill_selected_facts (member : AIClientType) (api_version : option string)
    (ws : Widgets) :
  let ws' := fill_selected listing member api_version ws in
  let azure := match member with AZURE_OPEN_AI => true | OPEN_AI => false end in
  settings (dialog ws') = settings (dialog ws)
  ∧ clientSelection (dialog ws') = clientSelection (dialog ws)
  ∧ openai_api_key_input (dialog ws') = openai_api_key_input (dialog ws)
  ∧ azure_api_key_input (dialog ws') = azure_api_key_input (dialog ws)
  ∧ azure_endpoint_input (dialog ws') = azure_endpoint_input (dialog ws)
  ∧ azure_api_version_input (dialog ws') = azure_api_version_input (dialog ws)
  ∧ openai_api_key_enabled ws' = negb azure
  ∧ azure_api_key_enabled ws' = azure
  ∧ azure_endpoint_enabled ws' = azure
  ∧ azure_api_version_enabled ws' = azure
  ∧ factory_calls ws'
    = factory_calls ws ++ (if azure then [] else [(OPEN_AI, api_version)])
  ∧ (length (warnings ws') - length (warnings ws)
     ≤ length (factory_calls ws') - length (factory_calls ws))%nat
  ∧ ((azure = true ∨ ∀ message,
        listing (length (factory_calls ws)) ≠ Raises message) →
     settings_get (settings (dialog ws)) "model" "" ≠ "" →
     model_selection (dialog ws')
     = settings_get (settings (dialog ws)) "model" "").
Proof.
  unfold fill_selected, fill_models, set_default_model. simpl.
  destruct member; simpl.
  - rewrite app_nil_r.
    destruct (truthy (settings_get (settings (dialog ws)) "model" "")) eqn:Hm;
      simpl; repeat split; try done; try lia.
    intros _ Hmodel%truthy_iff. congruence.
  - destruct (listing (length (factory_calls ws)))
      as [| [|id ids] | message] eqn:Hl;
      rewrite ?addItems_eq; simpl;
      destruct (truthy (settings_get (settings (dialog ws)) "model" "")) eqn:Hm;
      simpl; rewrite ?length_app; simpl;
      repeat split; try done; try lia;
      try (intros _ Hmodel%truthy_iff; congruence);
      try (intros [? | Hno]; [done | by destruct (Hno message)]).
Qed.

Lemma update_model_selection_Some (ws ws' : Widgets) :
  update_model_selection listing ws = Some ws' →
  ∃ member api_version,
    clientSelection (dialog ws) = name member
    ∧ (member = OPEN_AI → api_version = None)
    ∧ ws' = fill_selected listing member api_version ws.
Proof.
  unfold update_model_selection.
  destruct (member_of_name (clientSelection (dialog ws))) as [member |] eqn:Hm;
    [| done].
  simpl. intros [= <-]. apply member_of_name_Some in Hm.
  eexists member, _. split; [done |]. split; [| done].
  by intros ->.
Qed.

(** X17. When the user picks a client, the key field of that client and no
    other is enabled: the OpenAI key for [OPEN_AI], the Azure key, endpoint
    and API version for [AZURE_OPEN_AI]; the selection and the texts of the
    four fields stay as they are, and the factory is asked at most once,
    for OpenAI and without an API version. *)
Theorem update_model_selection_enables_client (ws ws' : Widgets) :
  update_model_selection listing ws = Some ws' →
  clientSelection (dialog ws') = clientSelection (dialog ws)
  ∧ (openai_api_key_enabled ws' = true
     ↔ clientSelection (dialog ws) = name OPEN_AI)
  ∧ (azure_api_key_enabled ws' = true
     ↔ clientSelection (dialog ws) = name AZURE_OPEN_AI)
  ∧ openai_api_key_enabled ws' = negb (azure_api_key_enabled ws')
  ∧ azure_endpoint_enabled ws' = azure_api_key_enabled ws'
  ∧ azure_api_version_enabled ws' = azure_api_key_enabled ws'
  ∧ openai_api_key_input (dialog ws') = openai_api_key_input (dialog ws)
  ∧ azure_api_key_input (dialog ws') = azure_api_key_input (dialog ws)
  ∧ azure_endpoint_input (dialog ws') = azure_endpoint_input (dialog ws)
  ∧ azure_api_version_input (dialog ws') = azure_api_version_input (dialog ws)
  ∧ (factory_calls ws' = factory_calls ws
     ∨ factory_calls ws' = factory_calls ws ++ [(OPEN_AI, None)]).
Proof.
  intros (member & api_version & Hname & Hnone & ->)%update_model_selection_Some.
  destruct (fill_selected_facts member api_version ws)
    as (_ & Hc & Ho & Ha & He & Hv & Hoe & Hae & Hee & Hve & Hcalls & _ & _).
  rewrite Hc, Ho, Ha, He, Hv, Hoe, Hae, Hee, Hve, Hcalls, Hname.
  destruct member; simpl; repeat split; try done.
  - left. by rewrite app_nil_r.
  - right. by rewrite Hnone.
Qed.

(** [fill_client_model_selection] returns, with the client combo box on the
    client it was called with. *)
Lemma fill_client_model_selection_facts (member : AIClientType)
    (api_version : option string) (ws : Widgets) :
  ∃ ws' calls,
    fill_client_model_selection listing member api_version ws = Some ws'
    ∧ settings (dialog ws') = settings (dialog ws)
    ∧ clientSelection (dialog ws') = name member
    ∧ openai_api_key_input (dialog ws') = openai_api_key_input (dialog ws)
    ∧ azure_api_key_input (dialog ws') = azure_api_key_input (dialog ws)
    ∧ azure_endpoint_input (dialog ws') = azure_endpoint_input (dialog ws)
    ∧ azure_api_version_input (dialog ws') = azure_api_version_input (dialog ws)
    ∧ openai_api_key_enabled ws'
      = match member with AZURE_OPEN_AI => false | OPEN_AI => true end
    ∧ azure_api_key_enabled ws'
      = match member with AZURE_OPEN_AI => true | OPEN_AI => false end
    ∧ azure_endpoint_enabled ws' = azure_api_key_enabled ws'
    ∧ azure_api_version_enabled ws' = azure_api_key_enabled ws'
    ∧ factory_calls ws' = factory_calls ws ++ calls
    ∧ (length calls ≤ 2)%nat
    ∧ (member = AZURE_OPEN_AI → calls = [])
    ∧ Forall (λ call, call = (OPEN_AI, None) ∨ call = (OPEN_AI, api_version))
             calls
    ∧ (length (warnings ws') - length (warnings ws) ≤ length calls)%nat
    ∧ ((∀ n message, listing n ≠ Raises message) →
       settings_get (settings (dialog ws)) "model" "" ≠ "" →
       model_selection (dialog ws')
       = settings_get (settings (dialog ws)) "model" "").
Proof.
  unfold fill_client_model_selection.
  assert (Htarget : match member with
                    | AZURE_OPEN_AI => name AZURE_OPEN_AI
                    | OPEN_AI => name OPEN_AI
                    end = name member) by (by destruct member).
  rewrite Htarget. clear Htarget.
  destruct (String.eqb_spec (clientSelection (dialog ws)) (name member))
    as [Hshown | Hother]; cbn [mbind option_bind].
  - pose proof (fill_selected_facts member api_version ws) as Hfacts.
    set (ws' := fill_selected listing member api_version ws) in *.
    clearbody ws'. cbv zeta in Hfacts.
    destruct Hfacts
      as (Hs & Hc & Ho & Ha & He & Hv & Hoe & Hae & Hee & Hve & Hcalls & Hw & Hmodel).
    exists ws',
      (if match member with AZURE_OPEN_AI => true | OPEN_AI => false end
       then [] else [(OPEN_AI, api_version)]).
    rewrite Hcalls, length_app in Hw.
    rewrite Hs, Hc, Ho, Ha, He, Hv, Hoe, Hae, Hee, Hve, Hcalls.
    destruct member; cbn [length negb] in *;
      (split; [done |]); repeat split; try done; try lia.
    + intros Hno Hm. apply Hmodel; auto.
    + constructor; [by right | constructor].
    + intros Hno Hm. apply Hmodel; auto.
  - unfold update_model_selection. cbn [dialog with_dialog clientSelection
      clientSelection_setText]. rewrite member_of_name_name.
    cbn [mbind option_bind].
    set (ws1 := with_dialog _ ws).
    set (api1 := match member with AZURE_OPEN_AI => _ | OPEN_AI => None end).
    assert (Hapi1 : member = OPEN_AI → api1 = None) by (by intros ->).
    clearbody api1.
    pose proof (fill_selected_facts member api1 ws1) as Hfacts1.
    set (ws2 := fill_selected listing member api1 ws1) in *.
    clearbody ws2. cbv zeta in Hfacts1.
    destruct Hfacts1
      as (Hs1 & Hc1 & Ho1 & Ha1 & He1 & Hv1 & _ & _ & _ & _ & Hcalls1 & Hw1 & _).
    pose proof (fill_selected_facts member api_version ws2) as Hfacts.
    set (ws' := fill_selected listing member api_version ws2) in *.
    clearbody ws'. cbv zeta in Hfacts.
    destruct Hfacts
      as (Hs & Hc & Ho & Ha & He & Hv & Hoe & Hae & Hee & Hve & Hcalls & Hw & Hmodel).
    exists ws',
      ((if match member with AZURE_OPEN_AI => true | OPEN_AI => false end
        then [] else [(OPEN_AI, api1)])
       ++ (if match member with AZURE_OPEN_AI => true | OPEN_AI => false end
           then [] else [(OPEN_AI, api_version)])).
    rewrite Hcalls, Hcalls1, !length_app in Hw.
    rewrite Hcalls1, !length_app in Hw1.
    rewrite Hs1 in Hmodel.
    rewrite Hs, Hc, Ho, Ha, He, Hv, Hoe, Hae, Hee, Hve, Hcalls.
    rewrite Hs1, Hc1, Ho1, Ha1, He1, Hv1, Hcalls1.
    subst ws1. cbn [dialog with_dialog settings clientSelection
      clientSelection_setText openai_api_key_input azure_api_key_input
      azure_endpoint_input azure_api_version_input factory_calls warnings] in *.
    rewrite <- app_assoc.
    destruct member; cbn [length negb app] in *;
      (split; [done |]); repeat split; try done; try lia.
    + intros Hno Hm. apply Hmodel; auto.
    + constructor; [left; by rewrite Hapi1 |].
      constructor; [by right | constructor].
    + intros Hno Hm. apply Hmodel; auto.
Qed.

Lemma set_initial_states_credentials_facts (w : World) (d : Dialog) :
  let d' := set_initial_states_credentials w d in
  settings d' = settings d
  ∧ clientSelection d' = clientSelection d
  ∧ azure_api_version_input d' = azure_api_version_input d
  ∧ model_selection d' = model_selection d
  ∧ openai_api_key_input d'
    = (if truthy (getenv w "OPENAI_API_KEY" "")
       then obscured_key (getenv w "OPENAI_API_KEY" "")
       else openai_api_key_input d)
  ∧ azure_api_key_input d'
    = (if truthy (getenv w "AZURE_OPENAI_API_KEY" "")
       then obscured_key (getenv w "AZURE_OPENAI_API_KEY" "")
       else azure_api_key_input d)
  ∧ azure_endpoint_input d' = getenv w "AZURE_OPENAI_ENDPOINT" "".
Proof.
  unfold set_initial_states_credentials, set_key_input_value.
  destruct (truthy (getenv w "OPENAI_API_KEY" ""));
    destruct (truthy (getenv w "AZURE_OPENAI_API_KEY" "")); by simpl.
Qed.

(** What a dialog that opens shows, given the settings it loaded. *)
Lemma open_dialog_facts (first_member : AIClientType) (w : World)
    (ws : Widgets) :
  open_dialog listing first_member w = Some ws →
  ∃ loaded member calls,
    init_settings w = inr loaded
    ∧ settings (dialog ws) = loaded
    ∧ settings_get loaded "ai_client_type" (name OPEN_AI) = name member
    ∧ clientSelection (dialog ws) = name member
    ∧ azure_api_version_input (dialog ws)
      = settings_get loaded "api_version" "2023-09-01-preview"
    ∧ openai_api_key_enabled ws
      = match member with AZURE_OPEN_AI => false | OPEN_AI => true end
    ∧ azure_api_key_enabled ws
      = match member with AZURE_OPEN_AI => true | OPEN_AI => false end
    ∧ azure_endpoint_enabled ws = azure_api_key_enabled ws
    ∧ azure_api_version_enabled ws = azure_api_key_enabled ws
    ∧ openai_api_key_input (dialog ws)
      = (if truthy (getenv w "OPENAI_API_KEY" "")
         then obscured_key (getenv w "OPENAI_API_KEY" "") else "")
    ∧ azure_api_key_input (dialog ws)
      = (if truthy (getenv w "AZURE_OPENAI_API_KEY" "")
         then obscured_key (getenv w "AZURE_OPENAI_API_KEY" "") else "")
    ∧ azure_endpoint_input (dialog ws) = getenv w "AZURE_OPENAI_ENDPOINT" ""
    ∧ factory_calls ws = calls
    ∧ (length calls ≤ 2)%nat
    ∧ (member = AZURE_OPEN_AI → calls = [])
    ∧ Forall (λ call, call = (OPEN_AI, None)) calls
    ∧ (length (warnings ws) ≤ length calls)%nat
    ∧ ((∀ n message, listing n ≠ Raises message) →
       settings_get loaded "model" "" ≠ "" →
       model_selection (dialog ws) = settings_get loaded "model" "").
Proof.
  unfold open_dialog.
  destruct (init_settings w) as [? | loaded]; [done |].
  unfold set_initial_states.
  cbn [init_ui_widgets dialog settings with_dialog].
  destruct (member_of_name (settings_get loaded "ai_client_type" (name OPEN_AI)))
    as [member |] eqn:Hmember; [| done].
  cbn [mbind option_bind].
  apply member_of_name_Some in Hmember.
  set (ws0 := with_dialog _ _).
  set (api := if String.eqb _ _ then None else Some _).
  assert (Hapi : member = OPEN_AI → api = None).
  { intros ->. subst api. rewrite Hmember. done. }
  clearbody api.
  destruct (fill_client_model_selection_facts member api ws0)
    as (ws1 & calls & -> & Hs & Hc & Ho & Ha & He & Hv & Hoe & Hae & Hee & Hve
        & Hcalls & Hlen & Hazure & Hall & Hw & Hmodel).
  cbn [mbind option_bind]. intros [= <-].
  destruct (set_initial_states_credentials_facts w (dialog ws1))
    as (Hs' & Hc' & Hv' & Hm' & Ho' & Ha' & He').
  exists loaded, member, calls.
  cbn [dialog with_dialog openai_api_key_enabled azure_api_key_enabled
       azure_endpoint_enabled azure_api_version_enabled factory_calls warnings].
  rewrite Hs', Hc', Hv', Hm', Ho', Ha', He'.
  rewrite Hs, Hc, Ho, Ha, Hv, Hoe, Hae, Hee, Hve, Hcalls.
  subst ws0. cbn in Hw, Hmodel |- *.
  repeat split; try done; try lia; try congruence.
  destruct member; [by rewrite (Hazure eq_refl) |].
  eapply Forall_impl; [exact Hall |]. intros call [-> | ->]; [done |].
  by rewrite Hapi.
Qed.

(** The constructor returns as soon as the settings load and name a
    member of the enum. *)
Lemma open_dialog_Some (first_member member : AIClientType) (w : World)
    (loaded : gmap string string) :
  init_settings w = inr loaded →
  settings_get loaded "ai_client_type" (name OPEN_AI) = name member →
  ∃ ws, open_dialog listing first_member w = Some ws.
Proof.
  intros Hload Hmember. unfold open_dialog, set_initial_states.
  rewrite Hload. cbn [init_ui_widgets dialog settings with_dialog].
  rewrite Hmember, member_of_name_name. cbn [mbind option_bind].
  set (ws0 := with_dialog _ _). set (api := if String.eqb _ _ then _ else _).
  destruct (fill_client_model_selection_facts member api ws0)
    as (ws1 & calls & -> & _).
  cbn [mbind option_bind]. eauto.
Qed.

(** X18. A dialog that opens shows the client of the settings file, or
    [OPEN_AI] when the file names none, and the API version of the file, or
    2023-09-01-preview when it has none; the OpenAI key field is enabled
    exactly for [OPEN_AI], and the Azure key, endpoint and version fields
    exactly for [AZURE_OPEN_AI]. *)
Theorem open_dialog_shows_settings (first_member : AIClientType) (w : World)
    (ws : Widgets) :
  open_dialog listing first_member w = Some ws →
  ∃ loaded,
    init_settings w = inr loaded
    ∧ clientSelection (dialog ws)
      = settings_get loaded "ai_client_type" (name OPEN_AI)
    ∧ azure_api_version_input (dialog ws)
      = settings_get loaded "api_version" "2023-09-01-preview"
    ∧ (openai_api_key_enabled ws = true
       ↔ clientSelection (dialog ws) = name OPEN_AI)
    ∧ (azure_api_key_enabled ws = true
       ↔ clientSelection (dialog ws) = name AZURE_OPEN_AI)
    ∧ openai_api_key_enabled ws = negb (azure_api_key_enabled ws)
    ∧ azure_endpoint_enabled ws = azure_api_key_enabled ws
    ∧ azure_api_version_enabled ws = azure_api_key_enabled ws.
Proof.
  intros (loaded & member & calls & Hload & _ & Hmember & Hc & Hv & Hoe & Hae
          & Hee & Hve & _)%open_dialog_facts.
  exists loaded. rewrite Hc, Hv, Hoe, Hae, Hee, Hve, Hmember.
  destruct member; by repeat split.
Qed.

(** X19. A dialog that opens shows each stored API key masked, leaves the
    field of a key that is unset or empty empty, and shows the endpoint as
    it is stored. *)
Theorem open_dialog_shows_credentials (first_member : AIClientType) (w : World)
    (ws : Widgets) :
  open_dialog listing first_member w = Some ws →
  openai_api_key_input (dialog ws)
  = (if truthy (getenv w "OPENAI_API_KEY" "")
     then obscured_key (getenv w "OPENAI_API_KEY" "") else "")
  ∧ azure_api_key_input (dialog ws)
    = (if truthy (getenv w "AZURE_OPENAI_API_KEY" "")
       then obscured_key (getenv w "AZURE_OPENAI_API_KEY" "") else "")
  ∧ azure_endpoint_input (dialog ws) = getenv w "AZURE_OPENAI_ENDPOINT" "".
Proof.
  by intros (loaded & member & calls & _ & _ & _ & _ & _ & _ & _ & _ & _
             & Ho & Ha & He & _)%open_dialog_facts.
Qed.



(** X22. After an accepted Apply on a client of the enum, a dialog opened
    again shows the client and the API version that were applied, and the
    applied model when it was not empty and the listing of models did not
    raise. *)
Theorem reopen_shows_applied (str_value : AIClientType → option string)
    (first_member : AIClientType) (d : Dialog) (w w' : World) :
  apply_settings str_value d w = (Accepted, w') →
  is_Some (member_of_name (clientSelection d)) →
  ∃ ws,
    open_dialog listing first_member w' = Some ws
    ∧ clientSelection (dialog ws) = clientSelection d
    ∧ azure_api_version_input (dialog ws) = azure_api_version_input d
    ∧ ((∀ n message, listing n ≠ Raises message) →
       model_selection d ≠ "" →
       model_selection (dialog ws) = model_selection d).
Proof.
  intros (_ & _ & Hload)%apply_then_load_fields [member Hmember].
  apply member_of_name_Some in Hmember.
  set (loaded := {[ "ai_client_type" := clientSelection d;
                    "model" := model_selection d;
                    "api_version" := azure_api_version_input d ]}
                 : gmap string string) in *.
  assert (Hclient : settings_get loaded "ai_client_type" (name OPEN_AI)
                    = clientSelection d) by (unfold settings_get; by simplify_map_eq).
  assert (Hversion : settings_get loaded "api_version" "2023-09-01-preview"
                     = azure_api_version_input d)
    by (unfold settings_get; by simplify_map_eq).
  assert (Hmodel : settings_get loaded "model" "" = model_selection d)
    by (unfold settings_get; by simplify_map_eq).
  destruct (open_dialog_Some first_member member w' loaded Hload) as [ws Hopen];
    [by rewrite Hclient |].
  exists ws. split; [done |].
  apply open_dialog_facts in Hopen
    as (loaded' & member' & calls & Hload' & _ & Hmember' & Hc & Hv & _ & _
        & _ & _ & _ & _ & _ & _ & _ & _ & _ & _ & Hshown).
  rewrite Hload in Hload'. injection Hload' as <-.
  rewrite Hc, Hv, <- Hmember', Hclient, Hversion. repeat split.
  rewrite Hmodel in Hshown. exact Hshown.
Qed.

End WithFactory.

Lemma update_model_selection_enables_client_witness :
  ∃ ws,
    update_model_selection (λ _, ModelIds ["gpt-4"; "gpt-3.5-turbo"])
      (mkWidgets (mkDialog ∅ "AZURE_OPEN_AI" "sk-typed" "" "" " " "gpt-4")
                 true false false false ["gpt-4"] [] [])
    = Some ws
    ∧ openai_api_key_enabled ws = negb (azure_api_key_enabled ws)
    ∧ openai_api_key_input (dialog ws) = "sk-typed".
Proof.
  destruct (update_model_selection (λ _, ModelIds ["gpt-4"; "gpt-3.5-turbo"])
              (mkWidgets (mkDialog ∅ "AZURE_OPEN_AI" "sk-typed" "" "" " " "gpt-4")
                         true false false false ["gpt-4"] [] []))
    as [ws |] eqn:Hupdate; [| by vm_compute in Hupdate].
  exists ws. split; [reflexivity |].
  destruct (update_model_selection_enables_client _ _ ws Hupdate)
    as (_ & _ & _ & Hopenai & _ & _ & Hkey & _).
  split; [exact Hopenai | exact Hkey].
Defined.

Lemma open_dialog_shows_settings_witness :
  ∃ ws,
    open_dialog (λ _, Raises "no network") AZURE_OPEN_AI
      (mkWorld ∅ {[ file_path := Json.dumps_indent4 [("model", "gpt-4")] ]})
    = Some ws
    ∧ (openai_api_key_enabled ws = true
       ↔ clientSelection (dialog ws) = name OPEN_AI)
    ∧ azure_endpoint_enabled ws = azure_api_key_enabled ws.
Proof.
  destruct (open_dialog (λ _, Raises "no network") AZURE_OPEN_AI
              (mkWorld ∅ {[ file_path := Json.dumps_indent4 [("model", "gpt-4")] ]}))
    as [ws |] eqn:Hopen; [| by vm_compute in Hopen].
  exists ws. split; [reflexivity |].
  destruct (open_dialog_shows_settings _ _ _ ws Hopen)
    as (loaded & _ & _ & _ & Hopenai & _ & _ & Hendpoint & _).
  split; [exact Hopenai | exact Hendpoint].
Defined.

Lemma open_dialog_shows_credentials_witness :
  ∃ ws,
    open_dialog (λ _, NoClient) OPEN_AI
      (mkWorld {[ "OPENAI_API_KEY" := "sk-0123456789abcdef";
                  "AZURE_OPENAI_ENDPOINT" := "https://example.openai.azure.com/" ]}
               ∅)
    = Some ws
    ∧ openai_api_key_input (dialog ws)
      = obscured_key "sk-0123456789abcdef"
    ∧ azure_api_key_input (dialog ws) = ""
    ∧ azure_endpoint_input (dialog ws) = "https://example.openai.azure.com/".
Proof.
  destruct (open_dialog (λ _, NoClient) OPEN_AI
              (mkWorld {[ "OPENAI_API_KEY" := "sk-0123456789abcdef";
                          "AZURE_OPENAI_ENDPOINT" :=
                            "https://example.openai.azure.com/" ]} ∅))
    as [ws |] eqn:Hopen; [| by vm_compute in Hopen].
  exists ws. split; [reflexivity |].
  exact (open_dialog_shows_credentials _ _ _ ws Hopen).
Defined.



Lemma reopen_shows_applied_witness :
  let d := mkDialog ∅ "AZURE_OPEN_AI" "" "0123456789abcdef"
                    "https://example.openai.azure.com/" "2024-02-01"
                    "my-deployment" in
  let w := mkWorld ∅ ∅ in
  ∃ ws,
    open_dialog (λ _, NoClient) AZURE_OPEN_AI
      (apply_settings plain_enum d w).2
    = Some ws
    ∧ clientSelection (dialog ws) = "AZURE_OPEN_AI"
    ∧ azure_api_version_input (dialog ws) = "2024-02-01"
    ∧ model_selection (dialog ws) = "my-deployment".
Proof.
  intros d w.
  assert (Happly : apply_settings plain_enum d w
                   = (Accepted, (apply_settings plain_enum d w).2))
    by reflexivity.
  destruct (reopen_shows_applied (λ _, NoClient) plain_enum AZURE_OPEN_AI d w
              (apply_settings plain_enum d w).2 Happly
              (ex_intro _ AZURE_OPEN_AI eq_refl))
    as (ws & Hopen & Hclient & Hversion & Hmodel).
  exists ws. split; [exact Hopen |]. split; [exact Hclient |].
  split; [exact Hversion |].
  apply Hmodel; [intros n message; discriminate | discriminate].
Defined.

(** Two openings, run: a first launch with the client combo box starting on
    another member asks the factory twice and ends on the first model
    listed; Azure settings with a model ask nothing and show that model. *)

Example open_first_run_lists_twice :
  (λ ws, (clientSelection (dialog ws), model_selection (dialog ws),
          model_items ws, factory_calls ws, warnings ws))
    <$> open_dialog (λ _, ModelIds ["gpt-4"; "gpt-3.5-turbo"]) AZURE_OPEN_AI
          (mkWorld ∅ ∅)
  = Some ("OPEN_AI", "gpt-4", ["gpt-4"; "gpt-3.5-turbo"],
          [(OPEN_AI, None); (OPEN_AI, None)], []).
Proof. vm_compute. reflexivity. Qed.

Example open_azure_settings :
  (λ ws, (clientSelection (dialog ws), azure_api_version_input (dialog ws),
          model_selection (dialog ws), factory_calls ws,
          openai_api_key_enabled ws, azure_api_key_enabled ws))
    <$> open_dialog (λ _, Raises "no network") OPEN_AI
          (mkWorld ∅
             {[ file_path :=
                  Json.dumps_indent4 [("ai_client_type", "AZURE_OPEN_AI");
                                      ("model", "my-deployment");
                                      ("api_version", "2024-02-01")] ]})
  = Some ("AZURE_OPEN_AI", "2024-02-01", "my-deployment", [], false, true).
Proof. vm_compute. reflexivity. Qed.

Example open_unknown_client_raises :
  open_dialog (λ _, NoClient) OPEN_AI
    (mkWorld ∅
       {[ file_path := Json.dumps_indent4 [("ai_client_type", "open_ai")] ]})
  = None.
Proof. vm_compute. reflexivity. Qed.

Example strip_example :
  strip (String "009" "  2024-02-01 " +:+ String Json.newline "") = "2024-02-01".
Proof. vm_compute. reflexivity. Qed.

End ModelSelectionProps.
